(** * Real_Time_Stock: the Express backend of [index.js]

    A shallow embedding of the request handlers of [index.js] (the JWT gate
    [verifyToken], [POST /login], [POST /portfolio/add], [GET /portfolio],
    [PUT] and [DELETE /portfolio/:id], [GET /stocks/live], [GET
    /admin/user-portfolios]) together with the fragment of JavaScript they
    run on: IEEE-754 binary64 numbers, the coercions [ToPrimitive],
    [ToNumber], [ToString], [ToBoolean], [parseFloat] with the TypeError
    they throw on an object that has no usable [toString], the operators
    [+], [-], [*], [||] and object literals with spread. *)

From Stdlib Require Import ZArith Floats String Ascii DecimalString List Bool Lia.
From stdpp Require Import base option list gmap strings.

Local Open Scope Z_scope.

(** ** JavaScript numbers

    A JavaScript number is an IEEE-754 binary64 value: Rocq's primitive
    [float], whose operations are specified by [SpecFloat] at precision
    [prec = 53] and [emax = 1024]. *)
Module JsNumber.

(** The Number value of the decimal [(-1)^neg * m * 10^e] with [0 <= m]:
    the exact value rounded to nearest, ties to even. *)
Definition decimal_SF (neg : bool) (m : Z) (e : Z) : spec_float :=
  match m with
  | Zpos p =>
      if 0 <=? e
      then binary_normalize prec emax (cond_Zopp neg (Zpos p * 10 ^ e)) 0 false
      else SFdiv prec emax (S754_finite neg p 0)
             (S754_finite false (Z.to_pos (10 ^ (- e))) 0)
  | _ => S754_zero neg
  end.

Definition of_decimal (neg : bool) (m : Z) (e : Z) : float :=
  SF2Prim (decimal_SF neg m e).

(** The Number value of an integer. *)
Definition of_Z (z : Z) : float :=
  SF2Prim (binary_normalize prec emax z 0 false).

(** [0 < x < Infinity]. *)
Definition is_positive_finite (x : float) : bool :=
  PrimFloat.ltb PrimFloat.zero x && PrimFloat.ltb x PrimFloat.infinity.

(** *** Reading numeric literals (ECMA-262 [StrDecimalLiteral])

    Strings are sequences of code units below 256; of the white space and
    line terminator characters these are TAB, LF, VT, FF, CR, SP and NBSP. *)
Definition is_white_space (c : ascii) : bool :=
  let n := N_of_ascii c in
  (((9 <=? n) && (n <=? 13)) || (n =? 32) || (n =? 160))%N.

Fixpoint trim_start (s : string) : string :=
  match s with
  | String c r => if is_white_space c then trim_start r else s
  | EmptyString => s
  end.

Fixpoint trim_end (s : string) : string :=
  match s with
  | String c r =>
      match trim_end r with
      | EmptyString => if is_white_space c then EmptyString else String c EmptyString
      | r' => String c r'
      end
  | EmptyString => s
  end.

Definition digit_of (radix : N) (c : ascii) : option Z :=
  let n := N_of_ascii c in
  let v := (if (48 <=? n) && (n <=? 57) then Some (n - 48)
            else if (97 <=? n) && (n <=? 122) then Some (n - 87)
            else if (65 <=? n) && (n <=? 90) then Some (n - 55)
            else None)%N in
  match v with
  | Some d => if (d <? radix)%N then Some (Z.of_N d) else None
  | None => None
  end.

(** The longest run of digits at the head of [s]: its value added to
    [acc * radix^n], the number [n] of digits read, and the rest of [s]. *)
Fixpoint digits (radix : N) (s : string) (acc : Z) (n : Z) : Z * Z * string :=
  match s with
  | String c r =>
      match digit_of radix c with
      | Some d => digits radix r (Z.of_N radix * acc + d) (n + 1)
      | None => (acc, n, s)
      end
  | EmptyString => (acc, n, s)
  end.

Inductive literal : Type :=
| LitInfinity
| LitDecimal (m e : Z).

(** [ExponentPart], when one is present at the head of [s]. *)
Definition exponent_part (s : string) : Z * string :=
  match s with
  | String c s1 =>
      if (Ascii.eqb c "e" || Ascii.eqb c "E")%char then
        let '(neg, s2) :=
          match s1 with
          | String "+"%char r => (false, r)
          | String "-"%char r => (true, r)
          | _ => (false, s1)
          end in
        let '(v, n, r) := digits 10 s2 0 0 in
        if n =? 0 then (0, s) else (if neg then - v else v, r)
      else (0, s)
  | EmptyString => (0, s)
  end.

(** The longest [StrUnsignedDecimalLiteral] at the head of [s]. *)
Definition unsigned_literal (s : string) : option (literal * string) :=
  if String.prefix "Infinity" s
  then Some (LitInfinity, String.substring 8 (String.length s - 8) s)
  else
    let '(ip, n1, r1) := digits 10 s 0 0 in
    match r1 with
    | String "."%char r =>
        let '(m, n2, r2) := digits 10 r ip 0 in
        if (n1 =? 0) && (n2 =? 0) then None
        else let '(ex, r3) := exponent_part r2 in Some (LitDecimal m (ex - n2), r3)
    | _ =>
        if n1 =? 0 then None
        else let '(ex, r3) := exponent_part r1 in Some (LitDecimal ip ex, r3)
    end.

(** The longest [StrDecimalLiteral] at the head of [s]. *)
Definition signed_literal (s : string) : option (bool * literal * string) :=
  match s with
  | String "-"%char r => (fun '(l, t) => (true, l, t)) <$> unsigned_literal r
  | String "+"%char r => (fun '(l, t) => (false, l, t)) <$> unsigned_literal r
  | _ => (fun '(l, t) => (false, l, t)) <$> unsigned_literal s
  end.

Definition literal_value (neg : bool) (l : literal) : float :=
  match l with
  | LitInfinity => if neg then PrimFloat.neg_infinity else PrimFloat.infinity
  | LitDecimal m e => of_decimal neg m e
  end.

(** [parseFloat] applied to a string. *)
Definition parse_float (s : string) : float :=
  match signed_literal (trim_start s) with
  | Some (neg, l, _) => literal_value neg l
  | None => PrimFloat.nan
  end.

Definition radix_literal (radix : N) (s : string) : float :=
  match digits radix s 0 0 with
  | (v, n, EmptyString) => if n =? 0 then PrimFloat.nan else of_Z v
  | _ => PrimFloat.nan
  end.

(** [StringToNumber]: the whole trimmed string has to be a numeric literal. *)
Definition of_string (s : string) : float :=
  let t := trim_end (trim_start s) in
  let decimal :=
    match signed_literal t with
    | Some (neg, l, EmptyString) => literal_value neg l
    | _ => PrimFloat.nan
    end in
  match t with
  | EmptyString => PrimFloat.zero
  | String "0"%char (String c r) =>
      if (Ascii.eqb c "x" || Ascii.eqb c "X")%char then radix_literal 16 r
      else if (Ascii.eqb c "o" || Ascii.eqb c "O")%char then radix_literal 8 r
      else if (Ascii.eqb c "b" || Ascii.eqb c "B")%char then radix_literal 2 r
      else decimal
  | _ => decimal
  end.

(** *** Printing ([Number::toString], radix 10)

    The finite value [m * 2^e] as a fraction. *)
Definition ratio (m : positive) (e : Z) : Z * Z :=
  if 0 <=? e then (Zpos m * 2 ^ e, 1) else (Zpos m, 2 ^ (- e)).

(** [p / q * 10^k]. *)
Definition scale10 (pq : Z * Z) (k : Z) : Z * Z :=
  let '(p, q) := pq in
  if 0 <=? k then (p * 10 ^ k, q) else (p, q * 10 ^ (- k)).

Definition decimal_digits (z : Z) : string :=
  DecimalString.NilZero.string_of_uint (N.to_uint (Z.to_N z)).

Definition count_digits (z : Z) : Z := Z.of_nat (String.length (decimal_digits z)).

(** The [n] with [10^(n-1) <= p/q < 10^n]. *)
Definition decimal_exponent (pq : Z * Z) : Z :=
  let a := count_digits (fst pq) - count_digits (snd pq) in
  let '(p', q') := scale10 pq (- a) in
  if q' <=? p' then a + 1 else a.

Definition rounds_to (m : positive) (e : Z) (s k : Z) : bool :=
  match decimal_SF false s k with
  | S754_finite false m' e' => (m' =? m)%positive && (e' =? e)
  | _ => false
  end.

(** The least number [k] of significant digits for which some [s] of [k]
    digits has [s * 10^(n-k)] round to [m * 2^e]; among two such [s] the
    one nearer to the value, the even one on a tie. Seventeen digits always
    determine a binary64 value, so the search from [k = 1] with fuel 17 ends
    before the fuel does. *)
Fixpoint shortest (fuel : nat) (k : Z) (m : positive) (e : Z) (pq : Z * Z) (n : Z)
  : Z * Z :=
  match fuel with
  | O => (Zpos m, e)
  | S fuel' =>
      let '(p', q') := scale10 pq (k - n) in
      let lo := p' / q' in
      let hi := lo + 1 in
      let r2 := 2 * (p' mod q') in
      match rounds_to m e lo (n - k), rounds_to m e hi (n - k) with
      | true, true =>
          if r2 <? q' then (lo, n - k)
          else if q' <? r2 then (hi, n - k)
          else if Z.even lo then (lo, n - k) else (hi, n - k)
      | true, false => (lo, n - k)
      | false, true => (hi, n - k)
      | false, false => shortest fuel' (k + 1) m e pq n
      end
  end.

Fixpoint strip_zeros (s : string) : string :=
  match s with
  | String c r =>
      match strip_zeros r with
      | EmptyString => if Ascii.eqb c "0" then EmptyString else String c EmptyString
      | r' => String c r'
      end
  | EmptyString => s
  end.

Fixpoint zeros (n : nat) : string :=
  match n with
  | O => EmptyString
  | S n' => String "0" (zeros n')
  end.

(** The digits [d] (there are [k] of them) with the decimal point after
    the [n]-th, laid out as [Number::toString] does. *)
Definition layout (d : string) (n : Z) : string :=
  let k := Z.of_nat (String.length d) in
  if (k <=? n) && (n <=? 21) then
    d +:+ zeros (Z.to_nat (n - k))
  else if (0 <? n) && (n <=? 21) then
    String.substring 0 (Z.to_nat n) d +:+ "." +:+
    String.substring (Z.to_nat n) (Z.to_nat (k - n)) d
  else if (-6 <? n) && (n <=? 0) then
    "0." +:+ zeros (Z.to_nat (- n)) +:+ d
  else
    let ex := (if n - 1 <? 0 then "-" else "+") +:+ decimal_digits (Z.abs (n - 1)) in
    if k =? 1 then d +:+ "e" +:+ ex
    else String.substring 0 1 d +:+ "." +:+
         String.substring 1 (Z.to_nat (k - 1)) d +:+ "e" +:+ ex.

Definition to_string (x : float) : string :=
  match Prim2SF x with
  | S754_nan => "NaN"
  | S754_zero _ => "0"
  | S754_infinity s => if s then "-Infinity" else "Infinity"
  | S754_finite s m e =>
      let pq := ratio m e in
      let n := decimal_exponent pq in
      let '(v, k10) := shortest 17 1 m e pq n in
      let d := decimal_digits v in
      (if s then "-" else "") +:+
      layout (strip_zeros d) (k10 + Z.of_nat (String.length d))
  end.

End JsNumber.


(** ** JavaScript values

    The values that JSON bodies, Firestore documents, parsed query strings
    and the handlers' own object literals are made of: data only, no
    functions. An object is an ordinary object with own data properties and
    [Object.prototype] above it; an array has no own property besides its
    elements. *)
#[warnings="-register-all"]
Inductive value : Type :=
| VUndefined
| VNull
| VBool (b : bool)
| VNum (x : float)
| VStr (s : string)
| VArr (items : list value)
| VObj (fields : gmap string value).

(** A flat JavaScript object: [doc.data()], [req.user], an entry of [stocks]. *)
Abbreviation object := (gmap string value).

Module Js.

(** The message of the TypeError that [ToPrimitive] throws (V8's wording).
    In the functions below [None] stands for this TypeError being thrown. *)
Definition cannot_convert : string := "Cannot convert object to primitive value".

(** [ToString]. An array prints as [join(",")] does. A data object has no
    callable [toString] of its own: without an own [toString] property the
    inherited [Object.prototype.toString] answers; with one, which shadows
    the inherited method and is not callable, no method yields a primitive
    ([valueOf], own or inherited, never does) and a TypeError is thrown. *)
Fixpoint ToString (v : value) : option string :=
  match v with
  | VUndefined => Some "undefined"
  | VNull => Some "null"
  | VBool b => Some (if b then "true" else "false")
  | VNum x => Some (JsNumber.to_string x)
  | VStr s => Some s
  | VArr items =>
      (fix join (l : list value) : option string :=
         let element x :=
           match x with
           | VUndefined | VNull => Some ""
           | _ => ToString x
           end in
         match l with
         | [] => Some ""
         | [x] => element x
         | x :: r =>
             match element x with
             | Some s =>
                 match join r with
                 | Some t => Some (s +:+ "," +:+ t)
                 | None => None
                 end
             | None => None
             end
         end) items
  | VObj fields =>
      match fields !! "toString" with
      | Some _ => None
      | None => Some "[object Object]"
      end
  end.

(** [ToBoolean]. *)
Definition truthy (v : value) : bool :=
  match v with
  | VUndefined | VNull => false
  | VBool b => b
  | VNum x => negb (PrimFloat.is_zero x || PrimFloat.is_nan x)
  | VStr s => negb (String.eqb s "")
  | VArr _ | VObj _ => true
  end.

(** [ToPrimitive], with either hint: arrays and objects end in [toString]
    ([valueOf] returns the object itself, or is an own data property). *)
Definition ToPrimitive (v : value) : option value :=
  match v with
  | VArr _ | VObj _ => VStr <$> ToString v
  | _ => Some v
  end.

(** [ToNumber] of a primitive. *)
Definition number_of (p : value) : float :=
  match p with
  | VUndefined => PrimFloat.nan
  | VNull => PrimFloat.zero
  | VBool b => if b then PrimFloat.one else PrimFloat.zero
  | VNum x => x
  | VStr s => JsNumber.of_string s
  | VArr _ | VObj _ => PrimFloat.nan
  end.

(** [ToNumber]. *)
Definition ToNumber (v : value) : option float := number_of <$> ToPrimitive v.

(** [parseFloat(v)]: the longest numeric literal at the head of
    [ToString(v)], NaN when there is none. *)
Definition parseFloat (v : value) : option float := JsNumber.parse_float <$> ToString v.

(** [a + b]: both operands are made primitive, the left one first; then
    concatenation as soon as one side is a string. *)
Definition add (a b : value) : option value :=
  pa ← ToPrimitive a;
  pb ← ToPrimitive b;
  match pa, pb with
  | VStr s, _ => t ← ToString pb; Some (VStr (s +:+ t))
  | _, VStr t => s ← ToString pa; Some (VStr (s +:+ t))
  | _, _ => Some (VNum (number_of pa + number_of pb))
  end.

(** [a * b] and [a - b]. *)
Definition mul (a b : value) : option float :=
  x ← ToNumber a; y ← ToNumber b; Some (x * y)%float.

Definition sub (a b : value) : option float :=
  x ← ToNumber a; y ← ToNumber b; Some (x - y)%float.

(** [a || b]. *)
Definition or (a b : value) : value := if truthy a then a else b.

(** [o.k] on a flat object, for a property name that [Object.prototype]
    does not define: [undefined] when the property is missing. *)
Definition get (o : object) (k : string) : value := default VUndefined (o !! k).

(** [v[k]] for a property name [k] that no built-in defines (not [length],
    not an index, not a method name): reading from [undefined] or [null]
    throws a TypeError ([None]); a primitive or an array has no such
    property. *)
Definition member (v : value) (k : string) : option value :=
  match v with
  | VUndefined | VNull => None
  | VObj fields => Some (get fields k)
  | _ => Some VUndefined
  end.

(** [{...target, ...source}]: the properties of [source] win. *)
Definition spread (target source : object) : object := source ∪ target.

(** [{...o, k: v}]. *)
Definition set (k : string) (v : value) (o : object) : object := <[k := v]> o.

End Js.

(** ** Bearer tokens

    [jsonwebtoken] with a shared secret (HS256), modelled symbolically: a
    signed token records the payload it was signed over, its registered time
    claims and the secret that signed it; any other header value is an
    opaque string. Time is in whole seconds, as [jwt.sign] stamps it and as
    [jwt.verify] reads the clock. *)
Module Jwt.

(** A registered time claim ([nbf], [exp]) found in a payload: a number
    of seconds, or a value that is not a number ([null], say). *)
Inductive stamp : Type :=
| Seconds (z : Z)
| NotNumber.

(** A signed token: the claims of its payload other than [iat], [nbf] and
    [exp], these three, and the signing secret. *)
Record token : Type := {
  claims : object;
  iat : Z;
  nbf : option stamp;
  exp : option stamp;
  secret : string
}.

Inductive credential : Type :=
| Opaque (s : string)
| Signed (t : token).

Inductive error : Type :=
| JsonWebTokenError (message : string)
| NotBeforeError
| TokenExpiredError.

(** A header value as a JavaScript condition: only the empty string is falsy. *)
Definition truthy (c : credential) : bool :=
  match c with
  | Opaque s => negb (String.eqb s "")
  | Signed _ => true
  end.

Definition usable (key : option string) : option string :=
  match key with
  | Some k => if String.eqb k "" then None else Some k
  | None => None
  end.

(** [jwt.sign(payload, key, { expiresIn })] at time [now], [expiresIn] in
    seconds: [iat] and [exp] are stamped, [nbf] is not. *)
Definition sign (payload : object) (key : option string) (expiresIn : Z) (now : Z)
  : string + credential :=
  match usable key with
  | Some k =>
      inr (Signed {| claims := payload; iat := now; nbf := None;
                     exp := Some (Seconds (now + expiresIn)); secret := k |})
  | None => inl "secretOrPrivateKey must have a value"%string
  end.

(** A time claim in the payload: present with its value, or absent. *)
Definition stamped (k : string) (s : option stamp) (o : object) : object :=
  match s with
  | Some (Seconds z) => Js.set k (VNum (JsNumber.of_Z z)) o
  | Some NotNumber => Js.set k VNull o
  | None => delete k o
  end.

(** The payload of a token, which is the object [jwt.verify] hands to its
    callback when it accepts the token. *)
Definition decoded (t : token) : object :=
  stamped "exp" (exp t)
    (stamped "nbf" (nbf t)
       (Js.set "iat" (VNum (JsNumber.of_Z (iat t))) (claims t))).

(** The checks of [jwt.verify] on the time claims at time [now]: [nbf]
    first, then [exp]; a claim that is present must be a number. *)
Definition timely (t : token) (now : Z) : option error :=
  match nbf t with
  | Some NotNumber => Some (JsonWebTokenError "invalid nbf value")
  | Some (Seconds n) =>
      if now <? n then Some NotBeforeError
      else
        match exp t with
        | Some NotNumber => Some (JsonWebTokenError "invalid exp value")
        | Some (Seconds e) => if e <=? now then Some TokenExpiredError else None
        | None => None
        end
  | None =>
      match exp t with
      | Some NotNumber => Some (JsonWebTokenError "invalid exp value")
      | Some (Seconds e) => if e <=? now then Some TokenExpiredError else None
      | None => None
      end
  end.

(** [jwt.verify(token, key, callback)] at time [now]. *)
Definition verify (c : credential) (key : option string) (now : Z) : error + object :=
  match c with
  | Opaque _ => inl (JsonWebTokenError "jwt malformed")
  | Signed t =>
      match usable key with
      | None => inl (JsonWebTokenError "secret or public key must be provided")
      | Some k =>
          if negb (String.eqb (secret t) k)
          then inl (JsonWebTokenError "invalid signature")
          else
            match timely t now with
            | Some err => inl err
            | None => inr (decoded t)
            end
      end
  end.

End Jwt.

(** ** The outside world *)

(** A Firestore document snapshot: [doc.id] and [doc.data()]. *)
Record document : Type := { doc_id : string; doc_data : object }.

(** What awaiting [axios.get(url)] gives: a rejection (network error, status
    outside 2xx) or a response whose [data] is the decoded body. *)
Inductive reply : Type :=
| Rejected (message : string)
| Resolved (data : value).

(** What awaiting [admin.auth().getUserByEmail(email)] gives. *)
Inductive user_lookup : Type :=
| NoUser (message : string)
| UserRecord (uid : string).

(** The Firestore operations the handlers await, over a database state
    [db]; [inl message] is a rejected promise. *)
Class Firestore (db : Type) : Type := {
  (** [db.collection("portfolios").where("uid", "==", v).get()] *)
  where_uid : db -> value -> string + list document;
  (** [db.collection("portfolios").get()] *)
  get_all : db -> string + list document;
  (** [db.collection("portfolios").doc(id).update(patch)] *)
  update_doc : db -> string -> value -> string + db;
  (** [db.collection("portfolios").doc(id).delete()] *)
  delete_doc : db -> string -> string + db
}.

(** ** Responses *)

Record summary : Type := {
  stocks : list object;
  totalValue : value;
  totalProfitLoss : value
}.

Inductive body : Type :=
| Text (s : string)
| TokenBody (token : Jwt.credential)
| SummaryBody (s : summary)
| Documents (l : list object).

Record response : Type := { status : Z; sent : body }.

(** The outcome of a middleware: a response of its own, or [next()] with
    [req.user] set. *)
Inductive gate : Type :=
| Reject (r : response)
| Next (user : object).

(** ** The handlers of [index.js] *)
Section Server.

(** [process.env.JWT_SECRET_KEY] and [process.env.ALPHA_VANTAGE_API_KEY]. *)
Variable SECRET_KEY : option string.
Variable ALPHA_VANTAGE_API_KEY : option string.

Definition env (v : option string) : value := from_option VStr VUndefined v.

(** The two answers of the gate. *)
Definition token_required : response :=
  {| status := 403; sent := Text "Token required" |}.
Definition invalid_token : response :=
  {| status := 401; sent := Text "Invalid token" |}.

(** [verifyToken]: [authorization] is [req.headers["authorization"]]. *)
Definition verifyToken (now : Z) (authorization : option Jwt.credential) : gate :=
  match authorization with
  | None => Reject token_required
  | Some token =>
      if negb (Jwt.truthy token) then Reject token_required
      else
        match Jwt.verify token SECRET_KEY now with
        | inl err => Reject invalid_token
        | inr decoded => Next decoded
        end
  end.

(** [app.post("/login", ...)]: [found] is the outcome of [getUserByEmail]. *)
Definition login (now : Z) (found : user_lookup) : response :=
  match found with
  | NoUser message => {| status := 400; sent := Text message |}
  | UserRecord uid =>
      match Jwt.sign {[ "uid" := VStr uid ]} SECRET_KEY 3600 now with
      | inr token => {| status := 200; sent := TokenBody token |}
      | inl message => {| status := 400; sent := Text message |}
      end
  end.

(** The template literal of the quote request for the symbol [symbol];
    [None] when converting the symbol to text throws. *)
Definition query_url (symbol : value) : option string :=
  s ← Js.ToString symbol;
  key ← Js.ToString (env ALPHA_VANTAGE_API_KEY);
  Some ("https://www.alphavantage.co/query?function=GLOBAL_QUOTE&symbol="
        +:+ s +:+ "&apikey=" +:+ key).

(** The URL of the quote request for one holding. *)
Definition quote_url (stockData : object) : option string :=
  query_url (Js.get stockData "symbol").

(** [(await axios.get(url)).data] inside a [try]: [None] when the promise
    is rejected. *)
Definition response_data (r : reply) : option value :=
  match r with
  | Rejected _ => None
  | Resolved data => Some data
  end.

(** [response.data['Global Quote']['05. price']]; [None] when a
    TypeError is thrown. *)
Definition price_field (data : value) : option value :=
  Js.member data "Global Quote" ≫= λ quote, Js.member quote "05. price".

(** The entry of the [catch] branch. *)
Definition failed_entry (doc : document) : object :=
  Js.set "error" (VStr "Failed to fetch current price")
    (Js.spread {[ "id" := VStr (doc_id doc) ]} (doc_data doc)).

(** The object returned by the [try] branch, from its three constants. *)
Definition valued_entry (doc : document) (currentPrice totalValue profitLoss : float)
  : object :=
  Js.set "profitLoss" (VNum profitLoss)
    (Js.set "totalValue" (VNum totalValue)
       (Js.set "currentPrice" (VNum currentPrice)
          (Js.spread {[ "id" := VStr (doc_id doc) ]} (doc_data doc)))).

(** The first half of the [try] block: the request and the parsed price.
    [axios_get url] is what this callback's [axios.get] settles to; [None]
    when the URL, the request, the read of the price or its conversion to
    text throws. *)
Definition quoted_price (doc : document) (axios_get : string -> reply) : option float :=
  url ← quote_url (doc_data doc);
  data ← response_data (axios_get url);
  price ← price_field data;
  Js.parseFloat price.

(** The second half: the two products and the entry; [None] when a
    conversion to number throws. *)
Definition valued (doc : document) (currentPrice : float) : option object :=
  let stockData := doc_data doc in
  totalValue ← Js.mul (VNum currentPrice) (Js.get stockData "quantity");
  difference ← Js.sub (VNum currentPrice) (Js.get stockData "purchasePrice");
  profitLoss ← Js.mul (VNum difference) (Js.get stockData "quantity");
  Some (valued_entry doc currentPrice totalValue profitLoss).

(** The [try] block of the callback; [None] when it throws. *)
Definition try_quote (doc : document) (axios_get : string -> reply) : option object :=
  quoted_price doc axios_get ≫= valued doc.

(** The callback mapped over [portfolio.docs]: whatever the [try] block
    throws, the [catch] branch answers with the failed entry. *)
Definition valueHolding (doc : document) (axios_get : string -> reply) : object :=
  default (failed_entry doc) (try_quote doc axios_get).

(** [stocks.reduce((sum, stock) => sum + (stock[field] || 0), 0)]; [None]
    when a [+] throws. *)
Definition total (field : string) (entries : list object) : option value :=
  fold_left (λ sum stock, sum ≫= λ s, Js.add s (Js.or (Js.get stock field) (VNum 0)))
    entries (Some (VNum 0)).

(** [await Promise.all(portfolio.docs.map(...))]; [axios_get i] is the
    [axios.get] of the callback of the [i]-th document. *)
Definition valueHoldings (docs : list document) (axios_get : nat -> string -> reply)
  : list object :=
  imap (λ i doc, valueHolding doc (axios_get i)) docs.

(** The aggregation of [GET /portfolio] once the holdings are read; [None]
    when one of the two [reduce] calls throws. *)
Definition valuePortfolio (docs : list document) (axios_get : nat -> string -> reply)
  : option summary :=
  let stocks := valueHoldings docs axios_get in
  totalValue ← total "totalValue" stocks;
  totalProfitLoss ← total "profitLoss" stocks;
  Some {| stocks := stocks; totalValue := totalValue;
          totalProfitLoss := totalProfitLoss |}.

Context {db : Type} `{Firestore db}.

(** [app.get("/portfolio", verifyToken, ...)] behind the gate. *)
Definition portfolio (user : object) (axios_get : nat -> string -> reply) (st : db)
  : db * response :=
  match where_uid st (Js.get user "uid") with
  | inr docs =>
      match valuePortfolio docs axios_get with
      | Some portfolioSummary =>
          (st, {| status := 200; sent := SummaryBody portfolioSummary |})
      | None => (st, {| status := 500; sent := Text Js.cannot_convert |})
      end
  | inl message => (st, {| status := 500; sent := Text message |})
  end.

(** [app.put("/portfolio/:id", verifyToken, ...)] behind the gate. *)
Definition put_portfolio (user : object) (id : string) (patch : value) (st : db)
  : db * response :=
  match update_doc st id patch with
  | inr st' => (st', {| status := 200; sent := Text "Stock updated" |})
  | inl message => (st, {| status := 500; sent := Text message |})
  end.

(** [app.delete("/portfolio/:id", verifyToken, ...)] behind the gate. *)
Definition delete_portfolio (user : object) (id : string) (st : db) : db * response :=
  match delete_doc st id with
  | inr st' => (st', {| status := 200; sent := Text "Stock removed" |})
  | inl message => (st, {| status := 500; sent := Text message |})
  end.

(** [app.get("/admin/user-portfolios", verifyToken, ...)] behind the gate. *)
Definition admin_portfolios (user : object) (st : db) : db * response :=
  if negb (Js.truthy (Js.get user "admin"))
  then (st, {| status := 403; sent := Text "Admin access only" |})
  else
    match get_all st with
    | inr docs => (st, {| status := 200; sent := Documents (doc_data <$> docs) |})
    | inl message => (st, {| status := 500; sent := Text message |})
    end.

(** A route [app.METHOD(path, verifyToken, handler)]: the handler runs
    only when the gate calls [next()]. *)
Definition route (handler : object -> db -> db * response)
    (now : Z) (authorization : option Jwt.credential) (st : db) : db * response :=
  match verifyToken now authorization with
  | Reject r => (st, r)
  | Next user => handler user st
  end.

End Server.

(** ** Vocabulary of the specification *)

(** The sum of a sequence of numbers, left to right from [0]. *)
Definition fsum (l : list float) : float := fold_left PrimFloat.add l 0%float.

(** A field of an entry as a number: what the field converts to, NaN when
    it does not convert. *)
Definition number (field : string) (entry : object) : float :=
  default PrimFloat.nan (Js.ToNumber (Js.get entry field)).

Definition positive_number (v : value) : bool :=
  match v with
  | VNum x => JsNumber.is_positive_finite x
  | _ => false
  end.

(** A Holding of the data model: [quantity] and [purchasePrice] are positive
    numbers. *)
Definition well_formed (doc : document) : bool :=
  positive_number (Js.get (doc_data doc) "quantity")
  && positive_number (Js.get (doc_data doc) "purchasePrice").

Definition lacks (field : string) (o : object) : bool :=
  match o !! field with
  | None => true
  | Some _ => false
  end.

(** The stored record has no field under a name the aggregator computes. *)
Definition plain (doc : document) : bool :=
  lacks "currentPrice" (doc_data doc) && lacks "totalValue" (doc_data doc)
  && lacks "profitLoss" (doc_data doc).

(** The failure marker and none of the computed fields. *)
Definition marked_failed (entry : object) : Prop :=
  entry !! "error" = Some (VStr "Failed to fetch current price")
  ∧ entry !! "currentPrice" = None
  ∧ entry !! "totalValue" = None
  ∧ entry !! "profitLoss" = None.

(** An entry either carries the number [t], not NaN, under [field], or has
    no such field. *)
Definition settled (field : string) (entry : object) (o : option float) : Prop :=
  match o with
  | Some t => Js.get entry field = VNum t ∧ PrimFloat.is_nan t = false
  | None => Js.get entry field = VUndefined
  end.

Section Vocabulary.

Variable ALPHA_VANTAGE_API_KEY : option string.

(** The sum of [field], in list order, over the entries whose quote
    request gave a price. *)
Definition quoted_sum (field : string) (docs : list document)
    (axios_get : nat -> string -> reply) : float :=
  fsum (omap id
          (imap (λ i doc,
                   (λ _, number field (valueHolding ALPHA_VANTAGE_API_KEY doc (axios_get i)))
                   <$> quoted_price ALPHA_VANTAGE_API_KEY doc (axios_get i))
             docs)).

End Vocabulary.

(** ** An in-memory store

    A stand-in for Firestore that is enough to run the handlers: documents by
    id, compared on a string [uid]; every operation is rejected while the
    store is unreachable. [update] needs an existing document and a non-empty
    object, whose fields (plain names, no field paths) replace the stored
    ones. *)
Module MemStore.

Record state : Type := { portfolios : gmap string object; online : bool }.

Definition documents (st : state) : list document :=
  (λ '(id, data), {| doc_id := id; doc_data := data |}) <$> map_to_list (portfolios st).

Definition owned_by (uid : string) (doc : document) : bool :=
  match doc_data doc !! "uid" with
  | Some (VStr u) => String.eqb u uid
  | _ => false
  end.

Definition query (st : state) (v : value) : string + list document :=
  if negb (online st) then inl "UNAVAILABLE"%string
  else
    match v with
    | VStr uid => inr (List.filter (owned_by uid) (documents st))
    | VUndefined => inl "Cannot use undefined as a Firestore value"%string
    | _ => inr []
    end.

Definition list_all (st : state) : string + list document :=
  if negb (online st) then inl "UNAVAILABLE"%string else inr (documents st).

Definition update (st : state) (id : string) (patch : value) : string + state :=
  if negb (online st) then inl "UNAVAILABLE"%string
  else
    match patch, portfolios st !! id with
    | VObj fields, Some old =>
        if bool_decide (fields = ∅ :> gmap string value)
        then inl "At least one field must be updated"%string
        else inr {| portfolios := <[id := Js.spread old fields]> (portfolios st);
                    online := true |}
    | VObj _, None => inl "NOT_FOUND"%string
    | _, _ => inl "Update data must be an object"%string
    end.

Definition remove (st : state) (id : string) : string + state :=
  if negb (online st) then inl "UNAVAILABLE"%string
  else inr {| portfolios := delete id (portfolios st); online := true |}.

#[global] Instance firestore : Firestore state := {|
  where_uid := query;
  get_all := list_all;
  update_doc := update;
  delete_doc := remove
|}.

End MemStore.

(** ** Sample data *)
Module Sample.

Definition holding (id uid symbol : string) (quantity purchasePrice : float) : document :=
  {| doc_id := id;
     doc_data := {[ "uid" := VStr uid; "symbol" := VStr symbol;
                    "quantity" := VNum quantity; "purchasePrice" := VNum purchasePrice ]} |}.

(** A GLOBAL_QUOTE body with the given price text. *)
Definition global_quote (symbol price : string) : value :=
  VObj {[ "Global Quote" :=
            VObj {[ "01. symbol" := VStr symbol; "05. price" := VStr price ]} ]}.

Definition aaa : document := holding "h1" "u1" "AAA" 10 5.
Definition bbb : document := holding "h2" "u1" "BBB" 3 2.5.
Definition bad : document := holding "h3" "u1" "BAD" 1 1.

(** [bad] after [PUT /portfolio/h3] with the body [{"totalValue": 1000000}]. *)
Definition patched : document :=
  {| doc_id := "h3"; doc_data := Js.set "totalValue" (VNum 1000000) (doc_data bad) |}.

(** The JSON value [{"toString": 1}]. *)
Definition trap : value := VObj {[ "toString" := VNum 1 ]}.


(** A holding added with the body
    [{"symbol": "AAA", "quantity": "ten", "purchasePrice": 5}]. *)
Definition worded : document :=
  {| doc_id := "h4";
     doc_data := {[ "uid" := VStr "u1"; "symbol" := VStr "AAA";
                    "quantity" := VStr "ten"; "purchasePrice" := VNum 5 ]} |}.

(** The provider answers the first request with 7, the second with 4.5
    and refuses every later one. *)
Definition provider (i : nat) (url : string) : reply :=
  match i with
  | 0%nat => Resolved (global_quote "AAA" "7.0000")
  | 1%nat => Resolved (global_quote "BBB" "4.5000")
  | _ => Rejected "Network Error"
  end.


(** The provider refuses every request. *)
Definition unreachable (i : nat) (url : string) : reply := Rejected "Network Error".

(** The provider answers every request with a price of 7. *)
Definition steady (i : nat) (url : string) : reply := Resolved (global_quote "AAA" "7").

(** The provider's body for a symbol it does not know. *)
Definition unknown_symbol : reply := Resolved (VObj {[ "Global Quote" := VObj ∅ ]}).

(** The provider's body once its request budget is spent. *)
Definition throttled : reply :=
  Resolved (VObj {[ "Note" := VStr "Thank you for using Alpha Vantage!" ]}).

(** [bad] with a text put under [totalValue]. *)
Definition annotated : document :=
  {| doc_id := "h3"; doc_data := Js.set "totalValue" (VStr "n/a") (doc_data bad) |}.

(** A reply whose price field is not a number. *)
Definition garbled : reply := Resolved (global_quote "AAA" "N/A").

(** A reply whose price field is [{"toString": 1}]. *)
Definition price_trap : reply :=
  Resolved (VObj {[ "Global Quote" := VObj {[ "05. price" := trap ]} ]}).

Definition key : option string := Some "s3cret"%string.
Definition api_key : option string := Some "demo"%string.

Definition store : MemStore.state :=
  {| MemStore.portfolios :=
       {[ "h1" := doc_data aaa; "h2" := doc_data bbb; "h3" := doc_data bad ]};
     MemStore.online := true |}.


(** The token [POST /login] issues to [uid] at time [now]. *)
Definition issued (uid : string) (now : Z) : Jwt.token :=
  {| Jwt.claims := {[ "uid" := VStr uid ]}; Jwt.iat := now; Jwt.nbf := None;
     Jwt.exp := Some (Jwt.Seconds (now + 3600)); Jwt.secret := "s3cret" |}.

Definition token_of (uid : string) (now : Z) : Jwt.credential :=
  Jwt.Signed (issued uid now).

(** An admin token, minted elsewhere with the same secret, that becomes
    valid at 2000 and has no expiry. *)
Definition postdated : Jwt.token :=
  {| Jwt.claims := {[ "uid" := VStr "root"; "admin" := VBool true ]}; Jwt.iat := 1000;
     Jwt.nbf := Some (Jwt.Seconds 2000); Jwt.exp := None; Jwt.secret := "s3cret" |}.

Definition nobody : object := {[ "uid" := VStr "nobody" ]}.

End Sample.

(** ** The other endpoints *)

(** [db.collection("portfolios").add(record)]; [inl message] is a rejected
    promise. *)
Class Collection (db : Type) : Type := {
  add_doc : db -> object -> string + db
}.

(** What [GET /stocks/live] sends: a text, or the [stockData] object. *)
Inductive live_body : Type :=
| LiveText (s : string)
| LiveQuote (stockData : object).

Record live_response : Type := { live_status : Z; live_sent : live_body }.

Section Endpoints.

Variable SECRET_KEY : option string.
Variable ALPHA_VANTAGE_API_KEY : option string.

(** The messages of the TypeErrors the engine throws when the property [k]
    is read, or destructured, from the nullish value [v]; their wording
    depends on the engine. *)
Variable read_error : value -> string -> string.
Variable destructure_error : value -> string -> string.

(** [app.post("/login", ...)] from the request body: [getUserByEmail email]
    is what [admin.auth().getUserByEmail(email)] settles to. *)
Definition login_request (getUserByEmail : value -> user_lookup) (now : Z) (body : value)
  : response :=
  match Js.member body "email" with
  | None => {| status := 400; sent := Text (destructure_error body "email") |}
  | Some email => login SECRET_KEY now (getUserByEmail email)
  end.

(** The record [POST /portfolio/add] hands to the store. *)
Definition new_holding (user : object) (symbol quantity purchasePrice : value) : object :=
  {[ "uid" := Js.get user "uid"; "symbol" := symbol; "quantity" := quantity;
     "purchasePrice" := purchasePrice ]}.

(** [app.post("/portfolio/add", verifyToken, ...)] behind the gate. *)
Definition add_portfolio {db : Type} `{Collection db}
    (user : object) (body : value) (st : db) : db * response :=
  match Js.member body "symbol", Js.member body "quantity",
        Js.member body "purchasePrice" with
  | Some symbol, Some quantity, Some purchasePrice =>
      match add_doc st (new_holding user symbol quantity purchasePrice) with
      | inr st' => (st', {| status := 201; sent := Text "Stock added" |})
      | inl message => (st, {| status := 500; sent := Text message |})
      end
  | _, _, _ => (st, {| status := 500; sent := Text (destructure_error body "symbol") |})
  end.

(** The URL [GET /stocks/live] requests for the query parameter [symbol]:
    the same template literal as the aggregator's. *)
Definition live_url (symbol : value) : option string :=
  query_url ALPHA_VANTAGE_API_KEY symbol.

(** [response.data['Global Quote'][k]] once the quote is known to be truthy. *)
Definition quote_field (quote : value) (k : string) : value :=
  default VUndefined (Js.member quote k).

(** The [stockData] object of [GET /stocks/live]. *)
Definition live_quote (symbol quote : value) : object :=
  {[ "symbol" := symbol;
     "price" := quote_field quote "05. price";
     "change" := quote_field quote "09. change";
     "changePercent" := quote_field quote "10. change percent";
     "volume" := quote_field quote "06. volume";
     "lastUpdated" := quote_field quote "07. latest trading day" ]}.

(** [app.get("/stocks/live", verifyToken, ...)] behind the gate: [symbol] is
    [req.query.symbol] (a text, or an array or object when the query string
    is nested), [axios_get url] what the request settles to. *)
Definition stocks_live (symbol : value) (axios_get : string -> reply) : live_response :=
  if negb (Js.truthy symbol)
  then {| live_status := 400; live_sent := LiveText "Symbol is required" |}
  else
    match live_url symbol with
    | None => {| live_status := 500; live_sent := LiveText Js.cannot_convert |}
    | Some url =>
        match axios_get url with
        | Rejected message => {| live_status := 500; live_sent := LiveText message |}
        | Resolved data =>
            match Js.member data "Global Quote" with
            | None =>
                {| live_status := 500;
                   live_sent := LiveText (read_error data "Global Quote") |}
            | Some quote =>
                if negb (Js.truthy quote)
                then {| live_status := 404; live_sent := LiveText "Stock not found" |}
                else {| live_status := 200;
                        live_sent := LiveQuote (live_quote symbol quote) |}
            end
        end
    end.

End Endpoints.

(** What one entry adds to a total: its [field] when that is a number other
    than zero and NaN. *)
Definition counted (field : string) (entry : object) : option float :=
  match Js.get entry field with
  | VNum t => if PrimFloat.is_zero t || PrimFloat.is_nan t then None else Some t
  | _ => None
  end.

(** The in-memory store with [add]: the new document gets an id longer than
    every id in use; a record with an [undefined] field is refused. *)
Module MemAdd.

Definition longest (m : gmap string object) : nat :=
  map_fold (λ k _ n, Nat.max (String.length k) n) 0%nat m.

Fixpoint letters (n : nat) : string :=
  match n with
  | O => EmptyString
  | S n' => String "a" (letters n')
  end.

Definition fresh (m : gmap string object) : string := letters (S (longest m)).

Definition defined (record : object) : bool :=
  map_fold (λ _ v ok, match v with VUndefined => false | _ => ok end) true record.

Definition add (st : MemStore.state) (record : object) : string + MemStore.state :=
  if negb (MemStore.online st) then inl "UNAVAILABLE"%string
  else if negb (defined record)
  then inl "Cannot use undefined as a Firestore value"%string
  else inr {| MemStore.portfolios :=
                <[fresh (MemStore.portfolios st) := record]> (MemStore.portfolios st);
              MemStore.online := true |}.

#[global] Instance collection : Collection MemStore.state := {| add_doc := add |}.

End MemAdd.

(** ** Signs of binary64 values *)
Module FloatSign.

(** Zero of either sign, or above it. *)
Definition nonneg (x : spec_float) : Prop :=
  match x with
  | S754_zero _ | S754_finite false _ _ | S754_infinity false => True
  | _ => False
  end.

(** Zero of either sign, or below it. *)
Definition nonpos (x : spec_float) : Prop :=
  match x with
  | S754_zero _ | S754_finite true _ _ | S754_infinity true => True
  | _ => False
  end.

End FloatSign.


(** * Facts

    ** Rounding in binary64 *)
Module FloatFacts.

Lemma fexp_eq x : fexp prec emax x = Z.max (x - 53) (-1074).
Proof. reflexivity. Qed.

Lemma digits2_pos_lower p : 2 ^ (Zpos (digits2_pos p) - 1) <= Zpos p.
Proof.
  induction p as [p IH|p IH|]; simpl digits2_pos.
  - rewrite Pos2Z.inj_succ.
    replace (Z.succ (Zpos (digits2_pos p)) - 1) with (Z.succ (Zpos (digits2_pos p) - 1)) by lia.
    rewrite Z.pow_succ_r by lia. lia.
  - rewrite Pos2Z.inj_succ.
    replace (Z.succ (Zpos (digits2_pos p)) - 1) with (Z.succ (Zpos (digits2_pos p) - 1)) by lia.
    rewrite Z.pow_succ_r by lia. lia.
  - simpl. lia.
Qed.

Lemma iter_pos_invariant {A} (f : A -> A) (P : Z -> A -> Prop) :
  (forall k x, 0 <= k -> P (k + 1) x -> P k (f x)) ->
  forall n k x, 0 <= k -> P (k + Zpos n) x -> P k (SpecFloat.iter_pos f n x).
Proof.
  intros Hf. induction n as [n IH|n IH|]; intros k x Hk Hx; simpl.
  - apply IH; [lia|]. apply IH; [lia|]. apply Hf; [lia|].
    replace (k + Z.pos n + Z.pos n + 1) with (k + Z.pos n~1) by lia. exact Hx.
  - apply IH; [lia|]. apply IH; [lia|].
    replace (k + Z.pos n + Z.pos n) with (k + Z.pos n~0) by lia. exact Hx.
  - apply Hf; assumption.
Qed.

Lemma shr_1_lower k mrs : 0 <= k -> 2 ^ (k + 1) <= shr_m mrs -> 2 ^ k <= shr_m (shr_1 mrs).
Proof.
  intros Hk. destruct mrs as [m r s]. rewrite Z.pow_add_r by lia.
  change (2 ^ 1) with 2. pose proof (Z.pow_pos_nonneg 2 k ltac:(lia) Hk).
  destruct m as [|[p|p|]|[p|p|]]; simpl; lia.
Qed.

Lemma shr_1_nonneg mrs : 0 <= shr_m mrs -> 0 <= shr_m (shr_1 mrs).
Proof. destruct mrs as [m r s]. destruct m as [|[p|p|]|[p|p|]]; simpl; lia. Qed.

Lemma shr_nonneg mrs e n : 0 <= shr_m mrs -> 0 <= shr_m (fst (shr mrs e n)).
Proof.
  intros H. destruct n as [|n|n]; simpl; trivial.
  apply (iter_pos_invariant shr_1 (fun _ x => 0 <= shr_m x)) with (k := 0); try lia.
  intros _ x _. apply shr_1_nonneg.
Qed.

Lemma shr_record_of_loc_m m l : shr_m (shr_record_of_loc m l) = m.
Proof. destruct l as [|[]]; reflexivity. Qed.

Lemma shr_fexp_nonneg m e l : 0 <= m -> 0 <= shr_m (fst (shr_fexp prec emax m e l)).
Proof. intros H. unfold shr_fexp. apply shr_nonneg. now rewrite shr_record_of_loc_m. Qed.

Lemma round_nearest_even_nonneg m l : 0 <= m -> 0 <= round_nearest_even m l.
Proof. destruct l as [|[]]; simpl; try lia. destruct (Z.even m); lia. Qed.

Lemma round_nearest_even_pos m l : 0 < m -> 0 < round_nearest_even m l.
Proof. destruct l as [|[]]; simpl; try lia. destruct (Z.even m); lia. Qed.

(** Rounding a non-negative mantissa never makes a NaN. *)
Lemma binary_round_aux_not_nan s m e l :
  0 <= m -> binary_round_aux prec emax s m e l <> S754_nan.
Proof.
  intros Hm. unfold binary_round_aux.
  pose proof (shr_fexp_nonneg m e l Hm) as H1.
  destruct (shr_fexp prec emax m e l) as [mrs' e']. simpl in H1.
  pose proof (shr_fexp_nonneg _ e' loc_Exact
                (round_nearest_even_nonneg _ (loc_of_shr_record mrs') H1)) as H2.
  destruct (shr_fexp prec emax _ e' loc_Exact) as [mrs'' e'']. simpl in H2.
  destruct (shr_m mrs'') as [|p|p]; try discriminate; try lia.
  destruct (e'' <=? emax - prec); discriminate.
Qed.

(** Above the least exponent, shifting a positive mantissa to its
    canonical exponent leaves it positive. *)
Lemma shr_fexp_pos m e l :
  0 < m -> -1074 <= e ->
  0 < shr_m (fst (shr_fexp prec emax m e l)) /\ -1074 <= snd (shr_fexp prec emax m e l).
Proof.
  intros Hm He. unfold shr_fexp. rewrite fexp_eq.
  destruct m as [|p|p]; try lia. simpl Zdigits2.
  pose proof (digits2_pos_lower p) as Hd.
  set (d := Zpos (digits2_pos p)) in *.
  destruct (Z.max (d + e - 53) (-1074) - e) as [|n|n] eqn:En; simpl;
    rewrite ?shr_record_of_loc_m; try (split; lia).
  split; [|lia].
  assert (Hn : Zpos n <= d - 1) by lia.
  assert (H2 : 2 ^ (0 + Zpos n) <= shr_m (shr_record_of_loc (Zpos p) l)).
  { rewrite shr_record_of_loc_m. simpl Z.add.
    transitivity (2 ^ (d - 1)); [|exact Hd].
    apply Z.pow_le_mono_r; lia. }
  pose proof (iter_pos_invariant shr_1 (fun k x => 2 ^ k <= shr_m x) shr_1_lower
                n 0 _ ltac:(lia) H2) as H3.
  simpl in H3. lia.
Qed.

Lemma binary_round_aux_pos s m e l :
  0 < m -> -1074 <= e ->
  binary_round_aux prec emax s m e l = S754_infinity s \/
  exists m' e', binary_round_aux prec emax s m e l = S754_finite s m' e'.
Proof.
  intros Hm He. unfold binary_round_aux.
  destruct (shr_fexp_pos m e l Hm He) as [H1 H1e].
  destruct (shr_fexp prec emax m e l) as [mrs' e']. simpl in H1, H1e.
  destruct (shr_fexp_pos _ e' loc_Exact
              (round_nearest_even_pos _ (loc_of_shr_record mrs') H1) H1e) as [H2 _].
  destruct (shr_fexp prec emax _ e' loc_Exact) as [mrs'' e'']. simpl in H2.
  destruct (shr_m mrs'') as [|p|p]; try lia.
  destruct (e'' <=? emax - prec); eauto.
Qed.

Lemma binary_round_pos s m e :
  -1074 <= e ->
  binary_round prec emax s m e = S754_infinity s \/
  exists m' e', binary_round prec emax s m e = S754_finite s m' e'.
Proof.
  intros He. unfold binary_round, shl_align. rewrite fexp_eq.
  destruct (Z.max (Z.pos (digits2_pos m) + e - 53) (-1074) - e) eqn:E;
    apply binary_round_aux_pos; lia.
Qed.

Lemma binary_round_not_nan s m e : binary_round prec emax s m e <> S754_nan.
Proof.
  unfold binary_round. destruct (shl_align _ _ _) as [mz ez].
  apply binary_round_aux_not_nan. lia.
Qed.

Lemma binary_normalize_not_nan z e sz : binary_normalize prec emax z e sz <> S754_nan.
Proof. destruct z; simpl; try discriminate; apply binary_round_not_nan. Qed.

Lemma binary_normalize_not_neg_zero z e :
  -1074 <= e -> binary_normalize prec emax z e false <> S754_zero true.
Proof.
  intros He. destruct z as [|p|p]; simpl; try discriminate.
  - destruct (binary_round_pos false p e He) as [H|(m' & e' & H)]; rewrite H; discriminate.
  - destruct (binary_round_pos true p e He) as [H|(m' & e' & H)]; rewrite H; discriminate.
Qed.

Lemma valid_finite_exponent s m e :
  valid_binary (S754_finite s m e) = true -> -1074 <= e.
Proof.
  simpl. unfold bounded, canonical_mantissa. rewrite fexp_eq.
  intros H. apply andb_prop in H. destruct H as [H _].
  apply Z.eqb_eq in H. lia.
Qed.

(** A sum is [-0] only when both terms are. *)
Lemma SFadd_neg_zero x y :
  valid_binary x = true -> valid_binary y = true ->
  SF64add x y = S754_zero true -> x = S754_zero true.
Proof.
  intros Hx Hy. unfold SF64add.
  destruct x as [[]|[]| |sx mx ex], y as [[]|[]| |sy my ey]; simpl; try discriminate; trivial.
  intros H. exfalso. revert H. apply binary_normalize_not_neg_zero.
  apply valid_finite_exponent in Hx, Hy. lia.
Qed.


Lemma SFcompare_refl x : x <> S754_nan -> SFcompare x x = Some Eq.
Proof.
  destruct x as [s|[]| |[] m e]; simpl; try congruence; try reflexivity;
    intros _; rewrite Z.compare_refl; f_equal;
    change (PosDef.Pos.compare_cont Eq m m) with (Pos.compare_cont Eq m m);
    rewrite Pos.compare_cont_refl; reflexivity.
Qed.

Lemma is_nan_spec x : PrimFloat.is_nan x = true <-> Prim2SF x = S754_nan.
Proof.
  unfold PrimFloat.is_nan. rewrite FloatAxioms.eqb_spec. unfold SFeqb. split.
  - intros H. destruct (Prim2SF x) eqn:E; trivial;
      rewrite SFcompare_refl in H by discriminate; discriminate.
  - intros ->. reflexivity.
Qed.

Lemma not_nan_spec x : PrimFloat.is_nan x = false <-> Prim2SF x <> S754_nan.
Proof.
  rewrite <- is_nan_spec. destruct (PrimFloat.is_nan x); split; congruence.
Qed.

Lemma nan_unique x : PrimFloat.is_nan x = true -> x = nan.
Proof. intros H. apply Prim2SF_inj. apply is_nan_spec in H. now rewrite H. Qed.

Lemma neg_zero_spec x : Prim2SF x = S754_zero true -> x = neg_zero.
Proof. intros H. apply Prim2SF_inj. now rewrite H. Qed.

(** [x + 0 = x] unless [x] is [-0]. *)
Lemma add_zero_r x : x <> neg_zero -> (x + 0)%float = x.
Proof.
  intros Hx. apply Prim2SF_inj. rewrite add_spec.
  change (Prim2SF 0) with (S754_zero false).
  pose proof (neg_zero_spec x) as Hz.
  destruct (Prim2SF x) as [[]|[]| |s m e]; try reflexivity.
  now elim Hx; apply Hz.
Qed.

Lemma add_neg_zero_r x : (x + neg_zero)%float = x.
Proof.
  apply Prim2SF_inj. rewrite add_spec.
  change (Prim2SF neg_zero) with (S754_zero true).
  destruct (Prim2SF x) as [[]|[]| |s m e]; reflexivity.
Qed.

(** A running sum that is not [-0] never becomes [-0]. *)
Lemma add_not_neg_zero x y : x <> neg_zero -> (x + y)%float <> neg_zero.
Proof.
  intros Hx H. apply Hx. apply neg_zero_spec.
  apply (SFadd_neg_zero _ (Prim2SF y)); try apply Prim2SF_valid.
  rewrite <- add_spec, H. reflexivity.
Qed.

Lemma positive_finite_spec x :
  PrimFloat.ltb 0 x && PrimFloat.ltb x infinity = true ->
  exists m e, Prim2SF x = S754_finite false m e.
Proof.
  intros H. apply andb_prop in H. destruct H as [H0 Hi].
  rewrite FloatAxioms.ltb_spec in H0, Hi.
  change (Prim2SF 0) with (S754_zero false) in H0.
  change (Prim2SF infinity) with (S754_infinity false) in Hi.
  destruct (Prim2SF x) as [[]|[]| |[] m e]; try discriminate; eauto.
Qed.

(** Times a positive finite number, what is not NaN stays so. *)
Lemma mul_not_nan x y :
  PrimFloat.is_nan x = false ->
  PrimFloat.ltb 0 y && PrimFloat.ltb y infinity = true ->
  PrimFloat.is_nan (x * y) = false.
Proof.
  intros Hx Hy. apply not_nan_spec. apply not_nan_spec in Hx.
  destruct (positive_finite_spec y Hy) as (m & e & Ey).
  rewrite mul_spec, Ey. unfold SF64mul.
  destruct (Prim2SF x) as [[]|[]| |s mx ex]; simpl; try discriminate; try congruence.
  apply binary_round_aux_not_nan. lia.
Qed.

(** Minus a positive finite number, what is not NaN stays so. *)
Lemma sub_not_nan x y :
  PrimFloat.is_nan x = false ->
  PrimFloat.ltb 0 y && PrimFloat.ltb y infinity = true ->
  PrimFloat.is_nan (x - y) = false.
Proof.
  intros Hx Hy. apply not_nan_spec. apply not_nan_spec in Hx.
  destruct (positive_finite_spec y Hy) as (m & e & Ey).
  rewrite sub_spec, Ey. unfold SF64sub.
  destruct (Prim2SF x) as [[]|[]| |s mx ex]; simpl; try discriminate; try congruence.
  apply binary_normalize_not_nan.
Qed.

Lemma is_zero_spec x : PrimFloat.is_zero x = true -> x = 0%float \/ x = neg_zero.
Proof.
  unfold PrimFloat.is_zero. rewrite FloatAxioms.eqb_spec.
  change (Prim2SF 0) with (S754_zero false). unfold SFeqb.
  intros H. destruct (Prim2SF x) as [[]|[]| |[] m e] eqn:E; try discriminate.
  - right. now apply neg_zero_spec.
  - left. apply Prim2SF_inj. now rewrite E.
Qed.

Lemma zero_not_neg_zero : 0%float <> neg_zero.
Proof. intros H. apply (f_equal Prim2SF) in H. vm_compute in H. discriminate. Qed.

(** NaN is absorbing. *)
Lemma nan_mul y : (nan * y)%float = nan.
Proof. apply Prim2SF_inj. rewrite mul_spec. reflexivity. Qed.

Lemma nan_sub y : (nan - y)%float = nan.
Proof. apply Prim2SF_inj. rewrite sub_spec. reflexivity. Qed.

End FloatFacts.


(** ** Conversions *)

Lemma ToNumber_number x : Js.ToNumber (VNum x) = Some x.
Proof. reflexivity. Qed.






(** ** Objects and entries *)

Lemma spread_id_lookup (data : object) (v : value) (k : string) :
  k ≠ "id"%string → Js.spread {[ "id" := v ]} data !! k = data !! k.
Proof.
  intros Hk. unfold Js.spread. rewrite lookup_union, lookup_singleton_ne by done.
  now destruct (data !! k).
Qed.

Lemma failed_entry_error doc :
  failed_entry doc !! "error" = Some (VStr "Failed to fetch current price").
Proof. unfold failed_entry, Js.set. apply lookup_insert_eq. Qed.

Lemma failed_entry_lookup doc (k : string) :
  k ≠ "error"%string → k ≠ "id"%string → failed_entry doc !! k = doc_data doc !! k.
Proof.
  intros He Hi. unfold failed_entry, Js.set.
  rewrite lookup_insert_ne by done. now apply spread_id_lookup.
Qed.

Lemma valued_entry_currentPrice doc p tv pl :
  valued_entry doc p tv pl !! "currentPrice" = Some (VNum p).
Proof.
  unfold valued_entry, Js.set.
  rewrite !lookup_insert_ne by done. apply lookup_insert_eq.
Qed.

Lemma valued_entry_totalValue doc p tv pl :
  valued_entry doc p tv pl !! "totalValue" = Some (VNum tv).
Proof.
  unfold valued_entry, Js.set.
  rewrite lookup_insert_ne by done. apply lookup_insert_eq.
Qed.

Lemma valued_entry_profitLoss doc p tv pl :
  valued_entry doc p tv pl !! "profitLoss" = Some (VNum pl).
Proof. unfold valued_entry, Js.set. apply lookup_insert_eq. Qed.

Lemma valued_entry_lookup doc p tv pl (k : string) :
  k ≠ "profitLoss"%string → k ≠ "totalValue"%string → k ≠ "currentPrice"%string →
  k ≠ "id"%string →
  valued_entry doc p tv pl !! k = doc_data doc !! k.
Proof.
  intros H1 H2 H3 H4. unfold valued_entry, Js.set.
  rewrite !lookup_insert_ne by done. now apply spread_id_lookup.
Qed.

(** The second half of the [try] block completes exactly when the stored
    quantity and purchase price convert to numbers, and its entry carries
    the two products. *)
Lemma valued_Some doc p e :
  valued doc p = Some e
  ↔ ∃ q pp, Js.ToNumber (Js.get (doc_data doc) "quantity") = Some q
      ∧ Js.ToNumber (Js.get (doc_data doc) "purchasePrice") = Some pp
      ∧ e = valued_entry doc p (p * q) ((p - pp) * q).
Proof.
  unfold valued, Js.mul, Js.sub. rewrite !ToNumber_number. simpl.
  destruct (Js.ToNumber (Js.get (doc_data doc) "quantity")) as [q|]; simpl;
    [|naive_solver].
  destruct (Js.ToNumber (Js.get (doc_data doc) "purchasePrice")) as [pp|]; simpl;
    naive_solver.
Qed.

Lemma valued_number doc p q pp :
  Js.get (doc_data doc) "quantity" = VNum q →
  Js.get (doc_data doc) "purchasePrice" = VNum pp →
  valued doc p = Some (valued_entry doc p (p * q) ((p - pp) * q)).
Proof. intros Eq Epp. apply valued_Some. exists q, pp. now rewrite Eq, Epp. Qed.

Lemma lacks_spec (field : string) (o : object) : lacks field o = true ↔ o !! field = None.
Proof. unfold lacks. destruct (o !! field); split; congruence. Qed.

Lemma plain_spec doc :
  plain doc = true →
  doc_data doc !! "currentPrice" = None ∧ doc_data doc !! "totalValue" = None
  ∧ doc_data doc !! "profitLoss" = None.
Proof.
  unfold plain. rewrite !andb_true_iff, !lacks_spec. tauto.
Qed.

Lemma failed_entry_marked doc : plain doc = true → marked_failed (failed_entry doc).
Proof.
  intros (H1 & H2 & H3)%plain_spec. unfold marked_failed.
  rewrite failed_entry_error, !failed_entry_lookup by done. auto.
Qed.

Section Callback.

Variable ALPHA_VANTAGE_API_KEY : option string.

Local Abbreviation quoted_price := (quoted_price ALPHA_VANTAGE_API_KEY).
Local Abbreviation try_quote := (try_quote ALPHA_VANTAGE_API_KEY).
Local Abbreviation valueHolding := (valueHolding ALPHA_VANTAGE_API_KEY).

(** The [try] block completes exactly when a price was obtained and the
    two stored numbers convert. *)
Lemma try_quote_Some doc axios_get e :
  try_quote doc axios_get = Some e
  ↔ ∃ p q pp, quoted_price doc axios_get = Some p
      ∧ Js.ToNumber (Js.get (doc_data doc) "quantity") = Some q
      ∧ Js.ToNumber (Js.get (doc_data doc) "purchasePrice") = Some pp
      ∧ e = valued_entry doc p (p * q) ((p - pp) * q).
Proof.
  unfold try_quote. destruct (quoted_price doc axios_get) as [p|]; simpl.
  - rewrite valued_Some. naive_solver.
  - naive_solver.
Qed.

Lemma valueHolding_try doc axios_get e :
  try_quote doc axios_get = Some e → valueHolding doc axios_get = e.
Proof. unfold valueHolding. now intros ->. Qed.

Lemma valueHolding_catch doc axios_get :
  try_quote doc axios_get = None → valueHolding doc axios_get = failed_entry doc.
Proof. unfold valueHolding. now intros ->. Qed.

(** No price, no entry of the [try] branch. *)
Lemma try_quote_unquoted doc axios_get :
  quoted_price doc axios_get = None → try_quote doc axios_get = None.
Proof. unfold try_quote. now intros ->. Qed.

(** On a Holding of the data model a price gives the entry of the [try]
    branch. *)
Lemma try_quote_well_formed doc axios_get p :
  well_formed doc = true → quoted_price doc axios_get = Some p →
  ∃ q pp, Js.get (doc_data doc) "quantity" = VNum q
    ∧ Js.get (doc_data doc) "purchasePrice" = VNum pp
    ∧ PrimFloat.ltb 0 q && PrimFloat.ltb q infinity = true
    ∧ PrimFloat.ltb 0 pp && PrimFloat.ltb pp infinity = true
    ∧ try_quote doc axios_get = Some (valued_entry doc p (p * q) ((p - pp) * q)).
Proof.
  intros Hwf Hp. unfold well_formed in Hwf. apply andb_prop in Hwf.
  destruct Hwf as [Hq Hpp].
  destruct (Js.get (doc_data doc) "quantity") as [| | |q| | |] eqn:Eq; try discriminate.
  destruct (Js.get (doc_data doc) "purchasePrice") as [| | |pp| | |] eqn:Epp;
    try discriminate.
  exists q, pp. split_and!; try done.
  unfold try_quote. rewrite Hp. simpl. now apply valued_number.
Qed.

End Callback.

(** ** The totals *)

(** One step of [reduce] on an entry whose field is a number. *)
Lemma reduce_number s t :
  s ≠ neg_zero → PrimFloat.is_nan t = false →
  Js.add (VNum s) (Js.or (VNum t) (VNum 0)) = Some (VNum (s + t)).
Proof.
  intros Hs Ht. unfold Js.or, Js.truthy. rewrite Ht, orb_false_r.
  destruct (PrimFloat.is_zero t) eqn:Hz; simpl; [|reflexivity].
  unfold Js.add; simpl. do 2 f_equal.
  destruct (FloatFacts.is_zero_spec t Hz) as [-> | ->].
  - reflexivity.
  - now rewrite FloatFacts.add_zero_r, FloatFacts.add_neg_zero_r.
Qed.

(** One step of [reduce] on an entry that lacks the field. *)
Lemma reduce_missing s :
  s ≠ neg_zero → Js.add (VNum s) (Js.or VUndefined (VNum 0)) = Some (VNum s).
Proof. intros Hs. unfold Js.add; simpl. do 2 f_equal. now apply FloatFacts.add_zero_r. Qed.

Lemma reduce_settled field entries os :
  Forall2 (settled field) entries os →
  ∀ s, s ≠ neg_zero →
    fold_left (λ sum stock, sum ≫= λ s, Js.add s (Js.or (Js.get stock field) (VNum 0)))
      entries (Some (VNum s))
    = Some (VNum (fold_left PrimFloat.add (omap id os) s)).
Proof.
  induction 1 as [|entry o entries os Ho _ IH]; intros s Hs; [reflexivity|].
  destruct o as [t|]; simpl in *.
  - destruct Ho as [-> Ht]. rewrite reduce_number by done.
    apply IH. now apply FloatFacts.add_not_neg_zero.
  - rewrite Ho, reduce_missing by done. now apply IH.
Qed.

Lemma total_settled field entries os :
  Forall2 (settled field) entries os →
  total field entries = Some (VNum (fsum (omap id os))).
Proof.
  intros H. unfold total, fsum.
  apply (reduce_settled _ _ _ H). apply FloatFacts.zero_not_neg_zero.
Qed.




(** ** Valued entries *)

Lemma omap_id_Some {A} (l : list A) : omap id (Some <$> l) = l.
Proof. induction l as [|x l IH]; csimpl; [reflexivity|]. now rewrite IH. Qed.

Lemma positive_number_spec v :
  positive_number v = true →
  ∃ x, v = VNum x ∧ PrimFloat.ltb 0 x && PrimFloat.ltb x infinity = true.
Proof. destruct v; simpl; try discriminate. eauto. Qed.

Lemma number_get field entry t : Js.get entry field = VNum t → number field entry = t.
Proof. unfold number. now intros ->. Qed.

(** The fields of a valued entry: the price, the stored quantity and
    purchase price, and the two products. *)
Lemma valued_entry_fields doc p q pp :
  Js.get (doc_data doc) "quantity" = VNum q →
  Js.get (doc_data doc) "purchasePrice" = VNum pp →
  let entry := valued_entry doc p (p * q) ((p - pp) * q) in
  Js.get entry "currentPrice" = VNum p
  ∧ Js.get entry "quantity" = VNum q
  ∧ Js.get entry "purchasePrice" = VNum pp
  ∧ Js.get entry "totalValue"
    = VNum (number "currentPrice" entry * number "quantity" entry)
  ∧ Js.get entry "profitLoss"
    = VNum ((number "currentPrice" entry - number "purchasePrice" entry)
            * number "quantity" entry).
Proof.
  intros Eq Epp entry. unfold number, Js.get in *. unfold entry.
  rewrite valued_entry_currentPrice, valued_entry_totalValue, valued_entry_profitLoss.
  rewrite !(valued_entry_lookup _ _ _ _ "quantity"),
    !(valued_entry_lookup _ _ _ _ "purchasePrice") by done.
  rewrite Eq, Epp. auto.
Qed.

(** ** The aggregation of [GET /portfolio] *)
Section Aggregation.

Variable ALPHA_VANTAGE_API_KEY : option string.
Context {db : Type} `{Firestore db}.

Local Abbreviation quote_url := (quote_url ALPHA_VANTAGE_API_KEY).
Local Abbreviation quoted_price := (quoted_price ALPHA_VANTAGE_API_KEY).
Local Abbreviation try_quote := (try_quote ALPHA_VANTAGE_API_KEY).
Local Abbreviation valueHolding := (valueHolding ALPHA_VANTAGE_API_KEY).
Local Abbreviation valueHoldings := (valueHoldings ALPHA_VANTAGE_API_KEY).
Local Abbreviation valuePortfolio := (valuePortfolio ALPHA_VANTAGE_API_KEY).
Local Abbreviation portfolio := (portfolio ALPHA_VANTAGE_API_KEY).

Lemma valueHoldings_lookup docs axios_get i :
  valueHoldings docs axios_get !! i
  = (λ doc, valueHolding doc (axios_get i)) <$> docs !! i.
Proof. apply list_lookup_imap. Qed.


Lemma valuePortfolio_Some docs axios_get s :
  valuePortfolio docs axios_get = Some s
  ↔ ∃ tv pl, total "totalValue" (valueHoldings docs axios_get) = Some tv
      ∧ total "profitLoss" (valueHoldings docs axios_get) = Some pl
      ∧ s = {| stocks := valueHoldings docs axios_get; totalValue := tv;
               totalProfitLoss := pl |}.
Proof.
  unfold valuePortfolio.
  destruct (total "totalValue" _) as [tv|]; simpl; [|naive_solver].
  destruct (total "profitLoss" _) as [pl|]; simpl; naive_solver.
Qed.






(** C6: when the owner has no holdings the request succeeds with status
    200 and the summary [{stocks: [], totalValue: 0, totalProfitLoss: 0}]. *)
Theorem empty_portfolio user axios_get (st : db) :
  where_uid st (Js.get user "uid") = inr [] →
  portfolio user axios_get st
  = (st, {| status := 200;
            sent := SummaryBody {| stocks := []; totalValue := VNum 0;
                                   totalProfitLoss := VNum 0 |} |}).
Proof. intros E. unfold portfolio. now rewrite E. Qed.


(** C3 (amended): when every holding is a Holding of the data model
    (quantity and purchase price positive numbers) and every lookup yields
    a price that parses as a number, each entry carries [totalValue =
    currentPrice * quantity] and [profitLoss = (currentPrice -
    purchasePrice) * quantity], with the quoted price and the stored
    quantity and purchase price, and the summary's [totalValue] and
    [totalProfitLoss] are the sums of these products over all entries. *)
Theorem all_quoted docs axios_get :
  (∀ i doc, docs !! i = Some doc →
     well_formed doc = true
     ∧ ∃ p, quoted_price doc (axios_get i) = Some p
            ∧ PrimFloat.is_nan p = false) →
  ∃ s, valuePortfolio docs axios_get = Some s
    ∧ length (stocks s) = length docs
    ∧ totalValue s
      = VNum (fsum ((λ e, number "currentPrice" e * number "quantity" e)%float
                    <$> stocks s))
    ∧ totalProfitLoss s
      = VNum (fsum ((λ e, (number "currentPrice" e - number "purchasePrice" e)
                          * number "quantity" e)%float
                    <$> stocks s))
    ∧ ∀ i doc, docs !! i = Some doc →
        ∃ e p, stocks s !! i = Some e
          ∧ quoted_price doc (axios_get i) = Some p
          ∧ Js.get e "currentPrice" = VNum p
          ∧ Js.get e "quantity" = Js.get (doc_data doc) "quantity"
          ∧ Js.get e "purchasePrice" = Js.get (doc_data doc) "purchasePrice"
          ∧ Js.get e "totalValue" = VNum (number "currentPrice" e * number "quantity" e)
          ∧ Js.get e "profitLoss"
            = VNum ((number "currentPrice" e - number "purchasePrice" e)
                    * number "quantity" e).
Proof.
  intros Hall.
  assert (Hdoc : ∀ i doc, docs !! i = Some doc →
            ∃ p q pp, quoted_price doc (axios_get i) = Some p
              ∧ Js.get (doc_data doc) "quantity" = VNum q
              ∧ Js.get (doc_data doc) "purchasePrice" = VNum pp
              ∧ valueHoldings docs axios_get !! i
                = Some (valued_entry doc p (p * q) ((p - pp) * q))
              ∧ PrimFloat.is_nan (p * q) = false
              ∧ PrimFloat.is_nan ((p - pp) * q) = false).
  { intros i doc Ed. destruct (Hall i doc Ed) as (Hwf & p & Ep & Hp).
    destruct (try_quote_well_formed _ doc (axios_get i) p Hwf Ep)
      as (q & pp & Eq & Epp & Hq & Hpp & Et).
    exists p, q, pp. rewrite valueHoldings_lookup, Ed. simpl.
    rewrite (valueHolding_try _ _ _ _ Et). split_and!; try done.
    - now apply FloatFacts.mul_not_nan.
    - apply FloatFacts.mul_not_nan; [|done]. now apply FloatFacts.sub_not_nan. }
  assert (Hentry : ∀ i e, valueHoldings docs axios_get !! i = Some e →
            ∃ doc p q pp, Js.get (doc_data doc) "quantity" = VNum q
              ∧ Js.get (doc_data doc) "purchasePrice" = VNum pp
              ∧ e = valued_entry doc p (p * q) ((p - pp) * q)
              ∧ PrimFloat.is_nan (p * q) = false
              ∧ PrimFloat.is_nan ((p - pp) * q) = false).
  { intros i e He. pose proof He as Hi. rewrite valueHoldings_lookup in Hi.
    destruct (docs !! i) as [doc|] eqn:Ed; [|done].
    destruct (Hdoc i doc Ed) as (p & q & pp & _ & Eq & Epp & Ev & Hn).
    rewrite Ev in He. injection He as <-. exists doc, p, q, pp. auto. }
  assert (Ht : total "totalValue" (valueHoldings docs axios_get)
               = Some (VNum (fsum ((λ e, number "currentPrice" e * number "quantity" e)%float
                                   <$> valueHoldings docs axios_get)))).
  { rewrite <- (omap_id_Some (_ <$> valueHoldings _ _)). apply total_settled.
    rewrite <- list_fmap_compose. apply Forall2_fmap_r, Forall_Forall2_diag.
    apply Forall_lookup. intros i e (doc & p & q & pp & Eq & Epp & -> & Hn1 & Hn2)%Hentry.
    destruct (valued_entry_fields doc p q pp Eq Epp) as (Ec & Equ & _ & Et & _).
    simpl. split; [exact Et|].
    now rewrite (number_get _ _ _ Ec), (number_get _ _ _ Equ). }
  assert (Hl : total "profitLoss" (valueHoldings docs axios_get)
               = Some (VNum (fsum ((λ e, (number "currentPrice" e - number "purchasePrice" e)
                                         * number "quantity" e)%float
                                   <$> valueHoldings docs axios_get)))).
  { rewrite <- (omap_id_Some (_ <$> valueHoldings _ _)). apply total_settled.
    rewrite <- list_fmap_compose. apply Forall2_fmap_r, Forall_Forall2_diag.
    apply Forall_lookup. intros i e (doc & p & q & pp & Eq & Epp & -> & Hn1 & Hn2)%Hentry.
    destruct (valued_entry_fields doc p q pp Eq Epp) as (Ec & Equ & Epu & _ & El).
    simpl. split; [exact El|].
    now rewrite (number_get _ _ _ Ec), (number_get _ _ _ Equ), (number_get _ _ _ Epu). }
  eexists. split; [apply valuePortfolio_Some; eauto|]. simpl.
  split; [apply length_imap|]. do 2 (split; [reflexivity|]).
  intros i doc Ed. destruct (Hdoc i doc Ed) as (p & q & pp & Ep & Eq & Epp & Ev & _).
  exists (valued_entry doc p (p * q) ((p - pp) * q)), p.
  destruct (valued_entry_fields doc p q pp Eq Epp) as (? & ? & ? & ? & ?).
  rewrite Eq, Epp. auto 10.
Qed.

(** C1 (amended): when no stored record has a field named [currentPrice],
    [totalValue] or [profitLoss], and every lookup either fails (the [try]
    block throws before a price is obtained: in building the URL, in the
    request, in reading the price or in converting it to text) or yields a
    price that parses as a number for a Holding of the data model, then
    [totalValue] and [totalProfitLoss] are the sums of [totalValue] and
    [profitLoss] over the quoted entries only, and every failed holding
    appears in [stocks] with the failure marker and without
    [currentPrice], [totalValue] and [profitLoss]. *)
Theorem partial_quotes docs axios_get :
  (∀ i doc, docs !! i = Some doc →
     plain doc = true
     ∧ ∀ p, quoted_price doc (axios_get i) = Some p →
            well_formed doc = true ∧ PrimFloat.is_nan p = false) →
  ∃ s, valuePortfolio docs axios_get = Some s
    ∧ totalValue s = VNum (quoted_sum ALPHA_VANTAGE_API_KEY "totalValue" docs axios_get)
    ∧ totalProfitLoss s
      = VNum (quoted_sum ALPHA_VANTAGE_API_KEY "profitLoss" docs axios_get)
    ∧ ∀ i doc, docs !! i = Some doc →
        quoted_price doc (axios_get i) = None →
        ∃ e, stocks s !! i = Some e ∧ marked_failed e.
Proof.
  intros Hall.
  assert (Hsettled : ∀ field : string,
            field = "totalValue"%string ∨ field = "profitLoss"%string →
            total field (valueHoldings docs axios_get)
            = Some (VNum (quoted_sum ALPHA_VANTAGE_API_KEY field docs axios_get))).
  { intros field Hfield. apply total_settled, Forall2_lookup. intros i.
    unfold valueHoldings. rewrite !list_lookup_imap.
    destruct (docs !! i) as [doc|] eqn:Ed; simpl; constructor.
    destruct (Hall i doc Ed) as [Hplain Hq].
    destruct (quoted_price doc (axios_get i)) as [p|] eqn:Ep; simpl.
    - destruct (Hq p eq_refl) as [Hwf Hp].
      destruct (try_quote_well_formed _ doc (axios_get i) p Hwf Ep)
        as (q & pp & Eq & Epp & Hq' & Hpp & Et).
      rewrite (valueHolding_try _ _ _ _ Et).
      destruct (valued_entry_fields doc p q pp Eq Epp) as (Ec & Equ & Epu & Etv & El).
      unfold number, Js.get in *.
      destruct Hfield as [-> | ->].
      + rewrite valued_entry_totalValue. split; [reflexivity|].
        now apply FloatFacts.mul_not_nan.
      + rewrite valued_entry_profitLoss. split; [reflexivity|].
        apply FloatFacts.mul_not_nan; [|done]. now apply FloatFacts.sub_not_nan.
    - rewrite (valueHolding_catch _ _ _ (try_quote_unquoted _ _ _ Ep)).
      destruct (failed_entry_marked doc Hplain) as (_ & _ & Ht & Hl).
      unfold Js.get. destruct Hfield as [-> | ->]; [now rewrite Ht | now rewrite Hl]. }
  pose proof (Hsettled "totalValue"%string (or_introl eq_refl)) as Ht.
  pose proof (Hsettled "profitLoss"%string (or_intror eq_refl)) as Hl.
  eexists. split; [apply valuePortfolio_Some; eauto|]. simpl.
  do 2 (split; [reflexivity|]).
  intros i doc Ed Eq. exists (failed_entry doc). rewrite valueHoldings_lookup, Ed. simpl.
  rewrite (valueHolding_catch _ _ _ (try_quote_unquoted _ _ _ Eq)).
  split; [reflexivity|]. apply failed_entry_marked. now destruct (Hall i doc Ed).
Qed.

(** C5 (amended): when the reply has a quote to read but its price does
    not parse as a number, there are two cases. A price that converts to
    text without a number at its head parses to NaN: the callback does not
    throw and (the stored quantity and purchase price converting to
    numbers) takes the [try] branch, the entry carrying [currentPrice],
    [totalValue] and [profitLoss], all NaN, and no failure marker being
    added (the [error] field is whatever the stored record had); in both
    sums the entry counts as 0. Only a price that does not convert to text
    makes [parseFloat] throw, and then the holding gets the failed entry,
    as after a network failure. *)
Theorem unparsable_price doc axios_get url data price :
  quote_url (doc_data doc) = Some url →
  axios_get url = Resolved data →
  price_field data = Some price →
  (Js.parseFloat price = None → valueHolding doc axios_get = failed_entry doc)
  ∧ (∀ x q pp,
       Js.parseFloat price = Some x → PrimFloat.is_nan x = true →
       Js.ToNumber (Js.get (doc_data doc) "quantity") = Some q →
       Js.ToNumber (Js.get (doc_data doc) "purchasePrice") = Some pp →
       let entry := valueHolding doc axios_get in
       entry !! "currentPrice" = Some (VNum nan)
       ∧ entry !! "totalValue" = Some (VNum nan)
       ∧ entry !! "profitLoss" = Some (VNum nan)
       ∧ entry !! "error" = doc_data doc !! "error"
       ∧ Js.or (Js.get entry "totalValue") (VNum 0) = VNum 0
       ∧ Js.or (Js.get entry "profitLoss") (VNum 0) = VNum 0).
Proof.
  intros Eurl Eget Eprice.
  assert (Eq : quoted_price doc axios_get = Js.parseFloat price).
  { unfold quoted_price. fold quote_url. rewrite Eurl. simpl.
    rewrite Eget. simpl. now rewrite Eprice. }
  split.
  - intros Hnone. apply valueHolding_catch, try_quote_unquoted. now rewrite Eq.
  - intros x q pp Ex Hnan%FloatFacts.nan_unique Equ Epp entry. subst x.
    assert (E : entry = valued_entry doc nan (nan * q) ((nan - pp) * q)).
    { apply valueHolding_try, try_quote_Some. exists nan, q, pp.
      rewrite Eq. auto. }
    rewrite FloatFacts.nan_sub, !FloatFacts.nan_mul in E.
    unfold Js.get. rewrite E.
    rewrite valued_entry_currentPrice, valued_entry_totalValue,
      valued_entry_profitLoss, valued_entry_lookup by done.
    auto 10.
Qed.

End Aggregation.

(** ** The gate and the routes behind it *)

(** Verification adds the time stamps to the signed claims. *)
Lemma decoded_lookup t (k : string) :
  k ≠ "iat"%string → k ≠ "nbf"%string → k ≠ "exp"%string →
  Jwt.decoded t !! k = Jwt.claims t !! k.
Proof.
  intros Hi Hn He. unfold Jwt.decoded, Jwt.stamped, Js.set.
  destruct (Jwt.exp t) as [[e|]|], (Jwt.nbf t) as [[n|]|];
    now rewrite ?lookup_insert_ne, ?lookup_delete_ne, ?lookup_insert_ne by done.
Qed.

(** The time checks pass exactly when [nbf], if any, is a number not after
    the clock and [exp], if any, a number after it. *)
Lemma timely_None t now :
  Jwt.timely t now = None
  ↔ (Jwt.nbf t = None ∨ ∃ n, Jwt.nbf t = Some (Jwt.Seconds n) ∧ n <= now)
    ∧ (Jwt.exp t = None ∨ ∃ e, Jwt.exp t = Some (Jwt.Seconds e) ∧ now < e).
Proof.
  unfold Jwt.timely.
  destruct (Jwt.nbf t) as [[n|]|], (Jwt.exp t) as [[e|]|];
    repeat match goal with
           | |- context [?a <? ?b] => destruct (Z.ltb_spec a b)
           | |- context [?a <=? ?b] => destruct (Z.leb_spec a b)
           end;
    split; try discriminate; try reflexivity;
    try (intros _; split; [first [now left | right; eexists; split; [reflexivity|lia]]
                          |first [now left | right; eexists; split; [reflexivity|lia]]]);
    intros [[Hn | (n' & Hn & ?)] [He | (e' & He & ?)]]; simplify_eq; lia.
Qed.

Section Gate.

Variable SECRET_KEY : option string.
Context {db : Type} `{Firestore db}.

Local Abbreviation verifyToken := (verifyToken SECRET_KEY).
Local Abbreviation route := (route SECRET_KEY).
Local Abbreviation login := (login SECRET_KEY).

(** C7 (amended): the gate answers 403 to an absent (or empty) credential
    and 401 to every credential that [jwt.verify] refuses, an expired one
    like an invalid one; these are its only rejections, and on a
    rejection the handler behind the gate does not run: the answer is the
    gate's and the store is untouched. *)
Theorem gate_rejections now authorization :
  (authorization = None ∨ authorization = Some (Jwt.Opaque "") →
   verifyToken now authorization = Reject token_required)
  ∧ (∀ token err,
       authorization = Some token → Jwt.truthy token = true →
       Jwt.verify token SECRET_KEY now = inl err →
       verifyToken now authorization = Reject invalid_token)
  ∧ (∀ r, verifyToken now authorization = Reject r →
       (r = token_required ∨ r = invalid_token)
       ∧ ∀ (handler : object → db → db * response) st,
           route handler now authorization st = (st, r)).
Proof.
  split; [|split].
  - intros [-> | ->]; reflexivity.
  - intros token err -> Ht Hv. unfold verifyToken. now rewrite Ht, Hv.
  - intros r Hr. split.
    + unfold verifyToken in Hr. destruct authorization as [token|]; [|naive_solver].
      destruct (Jwt.truthy token); simpl in Hr; [|naive_solver].
      destruct (Jwt.verify token SECRET_KEY now); naive_solver.
    + intros handler st. unfold route. now rewrite Hr.
Qed.

Lemma issued_token_verifies key t now later :
  Jwt.usable SECRET_KEY = Some key → Jwt.secret t = key →
  Jwt.nbf t = None → Jwt.exp t = Some (Jwt.Seconds (now + 3600)) →
  verifyToken later (Some (Jwt.Signed t))
  = if later <? now + 3600 then Next (Jwt.decoded t) else Reject invalid_token.
Proof.
  intros Hk Hs Hn He. unfold verifyToken, Jwt.verify, Jwt.timely. simpl.
  rewrite Hk, Hs, String.eqb_refl, Hn, He. simpl.
  destruct (Z.leb_spec (now + 3600) later), (Z.ltb_spec later (now + 3600));
    try lia; reflexivity.
Qed.

(** C8 (amended): with a usable secret, the token that [POST /login]
    issues is signed with that secret and verified with the same one, is
    accepted by the gate for 3600 seconds from its issue and refused from
    then on, and carries the owner's [uid] but no [admin] claim; the admin
    endpoint answers 403 exactly when the [admin] claim of the verified
    token is falsy, hence to every token issued by [POST /login]. *)
Theorem login_token now uid key :
  Jwt.usable SECRET_KEY = Some key →
  ∃ t, login now (UserRecord uid) = {| status := 200; sent := TokenBody (Jwt.Signed t) |}
    ∧ Jwt.secret t = key ∧ Jwt.iat t = now ∧ Jwt.nbf t = None
    ∧ Jwt.exp t = Some (Jwt.Seconds (now + 3600))
    ∧ (∀ later, verifyToken later (Some (Jwt.Signed t))
                = if later <? now + 3600 then Next (Jwt.decoded t)
                  else Reject invalid_token)
    ∧ Js.get (Jwt.decoded t) "uid" = VStr uid
    ∧ Jwt.decoded t !! "admin" = None
    ∧ (∀ st : db, admin_portfolios (Jwt.decoded t) st
                  = (st, {| status := 403; sent := Text "Admin access only" |}))
    ∧ (∀ user (st : db),
         status (snd (admin_portfolios user st)) = 403
         ↔ Js.truthy (Js.get user "admin") = false).
Proof.
  intros Hk. unfold login, Jwt.sign. rewrite Hk.
  set (t := {| Jwt.claims := {[ "uid" := VStr uid ]}; Jwt.iat := now;
               Jwt.nbf := None; Jwt.exp := Some (Jwt.Seconds (now + 3600));
               Jwt.secret := key |}).
  assert (Hadmin : Jwt.decoded t !! "admin" = None).
  { rewrite decoded_lookup by done. now apply lookup_singleton_ne. }
  exists t. split; [reflexivity|]. do 4 (split; [reflexivity|]). split_and!.
  - intros later. now apply (issued_token_verifies key).
  - unfold Js.get. rewrite decoded_lookup by done. simpl.
    now rewrite lookup_singleton_eq.
  - exact Hadmin.
  - intros st. unfold admin_portfolios, Js.get. now rewrite Hadmin.
  - intros user st. unfold admin_portfolios. split.
    + destruct (Js.truthy _); simpl; [|done].
      destruct (get_all st); simpl; discriminate.
    + now intros ->.
Qed.

(** C10: [PUT] and [DELETE /portfolio/:id] make no ownership check: for
    any two credentials the gate lets through, whatever identities they carry,
    the same request has the same effect on the store and the same
    answer. *)
Theorem no_ownership_check now token1 token2 user1 user2 id patch (st : db) :
  verifyToken now (Some token1) = Next user1 →
  verifyToken now (Some token2) = Next user2 →
  route (λ user, put_portfolio user id patch) now (Some token1) st
  = route (λ user, put_portfolio user id patch) now (Some token2) st
  ∧ route (λ user, delete_portfolio user id) now (Some token1) st
    = route (λ user, delete_portfolio user id) now (Some token2) st.
Proof. intros H1 H2. unfold route. now rewrite H1, H2. Qed.

End Gate.

(** * The claims on sample data *)

(** C1, as stated, fails: a holding whose stored record was given a
    [totalValue] field by [PUT /portfolio/:id] and whose lookup fails appears
    in [stocks] with that field, and the field enters the total although no
    lookup succeeded. *)
Lemma patched_holding_counts :
  quoted_price Sample.api_key Sample.patched (Sample.unreachable 0) = None
  ∧ valueHolding Sample.api_key Sample.patched (Sample.unreachable 0) !! "totalValue"
    = Some (VNum 1000000)
  ∧ ¬ marked_failed (valueHolding Sample.api_key Sample.patched (Sample.unreachable 0))
  ∧ totalValue <$> valuePortfolio Sample.api_key [Sample.patched] Sample.unreachable
    = Some (VNum 1000000)
  ∧ quoted_sum Sample.api_key "totalValue" [Sample.patched] Sample.unreachable = 0%float
  ∧ totalValue <$> valuePortfolio Sample.api_key [Sample.patched] Sample.unreachable
    ≠ Some (VNum (quoted_sum Sample.api_key "totalValue" [Sample.patched]
                    Sample.unreachable)).
Proof.
  assert (E : valueHolding Sample.api_key Sample.patched (Sample.unreachable 0)
              !! "totalValue" = Some (VNum 1000000)) by (vm_compute; reflexivity).
  split_and!.
  - reflexivity.
  - exact E.
  - intros (_ & _ & Ht & _). rewrite E in Ht. discriminate.
  - vm_compute. reflexivity.
  - vm_compute. reflexivity.
  - vm_compute. intros [= Hx].
Qed.

(** Two holdings quoted, the third refused. *)
Lemma partial_quotes_witness :
  ∃ s, valuePortfolio Sample.api_key [Sample.aaa; Sample.bbb; Sample.bad] Sample.provider
       = Some s
    ∧ totalValue s = VNum 83.5
    ∧ ∃ e, stocks s !! 2%nat = Some e ∧ marked_failed e.
Proof.
  destruct (partial_quotes Sample.api_key [Sample.aaa; Sample.bbb; Sample.bad]
              Sample.provider) as (s & Es & Ht & _ & Hf).
  - intros [|[|[|i]]] doc Hdoc; simpl in Hdoc; try discriminate;
      injection Hdoc as <-; (split; [reflexivity|]); intros p Hp;
      vm_compute in Hp; try discriminate; injection Hp as <-;
      split; vm_compute; reflexivity.
  - exists s. split; [exact Es|]. split.
    + rewrite Ht. vm_compute. reflexivity.
    + apply (Hf 2%nat Sample.bad); reflexivity.
Defined.



(** C3, as stated, fails, in two ways. A holding added with the text
    ["ten"] as its quantity and quoted at 7 gets the entry of the [try]
    branch, its [totalValue] the product [7 * "ten"], NaN; and a Holding of
    the data model whose quote carries the price text ["N/A"] gets the
    entry of the [try] branch too, with [currentPrice] and [totalValue]
    NaN. Either way no failure is marked, the sum of the products
    [currentPrice * quantity] is NaN, and the summary's [totalValue] is 0. *)
Lemma nan_products_break_sum :
  (quoted_price Sample.api_key Sample.worded (Sample.steady 0) = Some 7%float
   ∧ ∃ s e, valuePortfolio Sample.api_key [Sample.worded] Sample.steady = Some s
       ∧ stocks s = [e]
       ∧ e !! "error" = None
       ∧ e !! "currentPrice" = Some (VNum 7)
       ∧ e !! "quantity" = Some (VStr "ten")
       ∧ e !! "totalValue" = Some (VNum nan)
       ∧ totalValue s = VNum 0
       ∧ fsum ((λ e, number "currentPrice" e * number "quantity" e)%float <$> stocks s)
         = nan
       ∧ totalValue s
         ≠ VNum (fsum ((λ e, number "currentPrice" e * number "quantity" e)%float
                       <$> stocks s)))
  ∧ (well_formed Sample.aaa = true
     ∧ quoted_price Sample.api_key Sample.aaa (λ _, Sample.garbled) = Some nan
     ∧ ∃ s e, valuePortfolio Sample.api_key [Sample.aaa] (λ _ _, Sample.garbled) = Some s
         ∧ stocks s = [e]
         ∧ e !! "error" = None
         ∧ e !! "currentPrice" = Some (VNum nan)
         ∧ e !! "quantity" = Some (VNum 10)
         ∧ e !! "totalValue" = Some (VNum nan)
         ∧ totalValue s = VNum 0
         ∧ fsum ((λ e, number "currentPrice" e * number "quantity" e)%float
                 <$> stocks s) = nan
         ∧ totalValue s
           ≠ VNum (fsum ((λ e, number "currentPrice" e * number "quantity" e)%float
                         <$> stocks s))).
Proof.
  split.
  - split; [vm_compute; reflexivity|].
    eexists _, _. split; [vm_compute; reflexivity|]. simpl stocks.
    split; [reflexivity|]. split_and!; try (vm_compute; reflexivity).
    vm_compute. intros [= Hx].
  - split; [reflexivity|]. split; [vm_compute; reflexivity|].
    eexists _, _. split; [vm_compute; reflexivity|]. simpl stocks.
    split; [reflexivity|]. split_and!; try (vm_compute; reflexivity).
    vm_compute. intros [= Hx].
Qed.

(** Two holdings, both quoted: 10 * 7 + 3 * 4.5 and 10 * 2 + 3 * 2. *)
Lemma all_quoted_witness :
  ∃ s, valuePortfolio Sample.api_key [Sample.aaa; Sample.bbb] Sample.provider = Some s
    ∧ totalValue s
      = VNum (fsum ((λ e, number "currentPrice" e * number "quantity" e)%float
                    <$> stocks s))
    ∧ totalValue s = VNum 83.5
    ∧ totalProfitLoss s = VNum 26.
Proof.
  destruct (all_quoted Sample.api_key [Sample.aaa; Sample.bbb] Sample.provider)
    as (s & Es & _ & Ht & _ & _).
  - intros [|[|i]] doc Hdoc; simpl in Hdoc; try discriminate;
      injection Hdoc as <-; (split; [reflexivity|]);
      eexists; (split; [vm_compute; reflexivity | vm_compute; reflexivity]).
  - exists s. split; [exact Es|]. split; [exact Ht|].
    vm_compute in Es. injection Es as <-. split; vm_compute; reflexivity.
Defined.

(** C5, as stated, fails: a reply whose price text is ["N/A"] gives an entry
    without the failure marker and with [currentPrice], [totalValue] and
    [profitLoss] present, unlike the entry of a failed request. *)
Lemma garbled_price_not_marked :
  price_field (Sample.global_quote "AAA" "N/A") = Some (VStr "N/A")
  ∧ Js.parseFloat (VStr "N/A") = Some nan
  ∧ valueHolding Sample.api_key Sample.aaa (λ _, Sample.garbled) !! "error" = None
  ∧ valueHolding Sample.api_key Sample.aaa (λ _, Sample.garbled) !! "currentPrice"
    = Some (VNum nan)
  ∧ valueHolding Sample.api_key Sample.aaa (λ _, Sample.garbled) !! "totalValue"
    = Some (VNum nan)
  ∧ valueHolding Sample.api_key Sample.aaa (λ _, Sample.garbled) !! "profitLoss"
    = Some (VNum nan)
  ∧ ¬ marked_failed (valueHolding Sample.api_key Sample.aaa (λ _, Sample.garbled))
  ∧ valueHolding Sample.api_key Sample.aaa (λ _, Sample.garbled)
    ≠ valueHolding Sample.api_key Sample.aaa (λ _, Rejected "Network Error").
Proof.
  assert (E : valueHolding Sample.api_key Sample.aaa (λ _, Sample.garbled) !! "error"
              = None)
    by (vm_compute; reflexivity).
  split_and!; try (vm_compute; reflexivity); try exact E.
  - intros (He & _). rewrite E in He. discriminate.
  - intros Hx. apply (f_equal (lookup "error")) in Hx. rewrite E in Hx.
    vm_compute in Hx. discriminate.
Qed.

(** The entry of a reply whose price text is ["N/A"], and the entry of one
    whose price is [{"toString": 1}]. *)
Lemma unparsable_price_witness :
  valueHolding Sample.api_key Sample.aaa (λ _, Sample.garbled) !! "totalValue"
  = Some (VNum nan)
  ∧ valueHolding Sample.api_key Sample.aaa (λ _, Sample.garbled) !! "error" = None
  ∧ Js.or (Js.get (valueHolding Sample.api_key Sample.aaa (λ _, Sample.garbled))
             "totalValue") (VNum 0)
    = VNum 0
  ∧ valueHolding Sample.api_key Sample.aaa (λ _, Sample.price_trap)
    = failed_entry Sample.aaa.
Proof.
  destruct (unparsable_price Sample.api_key Sample.aaa (λ _, Sample.garbled)
              "https://www.alphavantage.co/query?function=GLOBAL_QUOTE&symbol=AAA&apikey=demo"
              (Sample.global_quote "AAA" "N/A") (VStr "N/A"))
    as (_ & Hnan); [vm_compute; reflexivity | reflexivity | vm_compute; reflexivity |].
  destruct (Hnan nan 10%float 5%float) as (_ & Ht & _ & He & Hs & _);
    [vm_compute; reflexivity | reflexivity | vm_compute; reflexivity
    | vm_compute; reflexivity |].
  destruct (unparsable_price Sample.api_key Sample.aaa (λ _, Sample.price_trap)
              "https://www.alphavantage.co/query?function=GLOBAL_QUOTE&symbol=AAA&apikey=demo"
              (VObj {[ "Global Quote" := VObj {[ "05. price" := Sample.trap ]} ]})
              Sample.trap)
    as (Hthrow & _); [vm_compute; reflexivity | reflexivity | vm_compute; reflexivity |].
  split_and!.
  - exact Ht.
  - rewrite He. vm_compute. reflexivity.
  - exact Hs.
  - apply Hthrow. vm_compute. reflexivity.
Defined.

(** An owner without holdings. *)
Lemma empty_portfolio_witness :
  portfolio Sample.api_key Sample.nobody Sample.provider Sample.store
  = (Sample.store,
     {| status := 200;
        sent := SummaryBody {| stocks := []; totalValue := VNum 0;
                               totalProfitLoss := VNum 0 |} |}).
Proof.
  apply (empty_portfolio Sample.api_key Sample.nobody Sample.provider Sample.store).
  vm_compute. reflexivity.
Defined.

(** C7, as stated, fails: a malformed credential and an expired token are
    refused with one and the same status, 401. *)
Lemma invalid_and_expired_alike :
  Jwt.verify (Jwt.Opaque "not-a-token") Sample.key 5000
  = inl (Jwt.JsonWebTokenError "jwt malformed")
  ∧ Jwt.verify (Sample.token_of "u1" 1000) Sample.key 5000 = inl Jwt.TokenExpiredError
  ∧ verifyToken Sample.key 5000 (Some (Jwt.Opaque "not-a-token"))
    = Reject {| status := 401; sent := Text "Invalid token" |}
  ∧ verifyToken Sample.key 5000 (Some (Sample.token_of "u1" 1000))
    = Reject {| status := 401; sent := Text "Invalid token" |}.
Proof. split_and!; vm_compute; reflexivity. Qed.

(** No credential, then an expired one in front of [DELETE]. *)
Lemma gate_rejections_witness :
  verifyToken Sample.key 5000 None = Reject token_required
  ∧ verifyToken Sample.key 5000 (Some (Sample.token_of "u1" 1000)) = Reject invalid_token
  ∧ route Sample.key (λ user, delete_portfolio user "h1") 5000
      (Some (Sample.token_of "u1" 1000)) Sample.store
    = (Sample.store, invalid_token).
Proof.
  pose proof (gate_rejections Sample.key (db := MemStore.state) 5000 None)
    as (Habsent & _ & _).
  pose proof (gate_rejections Sample.key (db := MemStore.state) 5000
                (Some (Sample.token_of "u1" 1000))) as (_ & Hrefused & Hstop).
  split_and!.
  - apply Habsent. now left.
  - apply (Hrefused (Sample.token_of "u1" 1000) Jwt.TokenExpiredError);
      vm_compute; reflexivity.
  - apply Hstop. vm_compute. reflexivity.
Defined.

(** C8, as stated, fails: the token [POST /login] issues carries no [admin]
    claim, and the admin endpoint answers it with 403. *)
Lemma issued_token_lacks_admin :
  login Sample.key 1000 (UserRecord "u1")
  = {| status := 200; sent := TokenBody (Sample.token_of "u1" 1000) |}
  ∧ Jwt.claims (Sample.issued "u1" 1000) !! "admin" = None
  ∧ verifyToken Sample.key 1001 (Some (Sample.token_of "u1" 1000))
    = Next (Jwt.decoded (Sample.issued "u1" 1000))
  ∧ Jwt.decoded (Sample.issued "u1" 1000) !! "admin" = None
  ∧ route Sample.key admin_portfolios 1001 (Some (Sample.token_of "u1" 1000))
      Sample.store
    = (Sample.store, {| status := 403; sent := Text "Admin access only" |}).
Proof. split_and!; vm_compute; reflexivity. Qed.

(** A token issued at 1000 is good until 4599. *)
Lemma login_token_witness :
  ∃ t, login Sample.key 1000 (UserRecord "u1")
       = {| status := 200; sent := TokenBody (Jwt.Signed t) |}
    ∧ Jwt.exp t = Some (Jwt.Seconds 4600)
    ∧ verifyToken Sample.key 4599 (Some (Jwt.Signed t)) = Next (Jwt.decoded t)
    ∧ verifyToken Sample.key 4600 (Some (Jwt.Signed t)) = Reject invalid_token
    ∧ Jwt.decoded t !! "admin" = None.
Proof.
  destruct (login_token Sample.key (db := MemStore.state) 1000 "u1" "s3cret")
    as (t & Hl & _ & _ & _ & He & Hv & _ & Ha & _).
  - vm_compute. reflexivity.
  - exists t. split; [exact Hl|]. split; [exact He|].
    split; [exact (Hv 4599)|]. split; [exact (Hv 4600) | exact Ha].
Defined.

(** The owner [u1] and the stranger [u2] on the holding [h1]. *)
Lemma no_ownership_check_witness :
  route Sample.key (λ user, delete_portfolio user "h1") 1001
    (Some (Sample.token_of "u1" 1000)) Sample.store
  = route Sample.key (λ user, delete_portfolio user "h1") 1001
      (Some (Sample.token_of "u2" 1000)) Sample.store
  ∧ route Sample.key
      (λ user, put_portfolio user "h1" (VObj {[ "quantity" := VNum 0 ]})) 1001
      (Some (Sample.token_of "u1" 1000)) Sample.store
    = route Sample.key
        (λ user, put_portfolio user "h1" (VObj {[ "quantity" := VNum 0 ]})) 1001
        (Some (Sample.token_of "u2" 1000)) Sample.store.
Proof.
  destruct (no_ownership_check Sample.key 1001 (Sample.token_of "u1" 1000)
              (Sample.token_of "u2" 1000) (Jwt.decoded (Sample.issued "u1" 1000))
              (Jwt.decoded (Sample.issued "u2" 1000)) "h1"
              (VObj {[ "quantity" := VNum 0 ]}) Sample.store) as [Hput Hdel].
  - vm_compute. reflexivity.
  - vm_compute. reflexivity.
  - split; [exact Hdel | exact Hput].
Defined.


(** * Examples *)

(** The first example of the specification: ten AAA bought at 5, quoted 7. *)
Example quoted_example :
  valuePortfolio Sample.api_key [Sample.aaa] Sample.steady
  = Some {| stocks := [ {[ "id" := VStr "h1"; "uid" := VStr "u1"; "symbol" := VStr "AAA";
                           "quantity" := VNum 10; "purchasePrice" := VNum 5;
                           "currentPrice" := VNum 7; "totalValue" := VNum 70;
                           "profitLoss" := VNum 20 ]} ];
            totalValue := VNum 70;
            totalProfitLoss := VNum 20 |}.
Proof. vm_compute. reflexivity. Qed.

(** The second: the lookup for BAD fails. *)
Example failed_example :
  valuePortfolio Sample.api_key [Sample.bad] Sample.unreachable
  = Some {| stocks := [ {[ "id" := VStr "h3"; "uid" := VStr "u1"; "symbol" := VStr "BAD";
                           "quantity" := VNum 1; "purchasePrice" := VNum 1;
                           "error" := VStr "Failed to fetch current price" ]} ];
            totalValue := VNum 0;
            totalProfitLoss := VNum 0 |}.
Proof. vm_compute. reflexivity. Qed.

(** A body without a quote makes the price read throw: the failed entry. *)
Example throttled_example :
  valueHolding Sample.api_key Sample.aaa (λ _, Sample.throttled)
  = failed_entry Sample.aaa.
Proof. reflexivity. Qed.

(** A quote without a price is read as NaN: a valued entry. *)
Example unknown_symbol_example :
  valueHolding Sample.api_key Sample.aaa (λ _, Sample.unknown_symbol)
  = valued_entry Sample.aaa nan nan nan.
Proof. vm_compute. reflexivity. Qed.

(** A symbol, a price or a quantity that is [{"toString": 1}] makes the
    [try] block throw: no request for the first, the failed entry for
    all. *)
Example trap_examples :
  quote_url Sample.api_key {[ "symbol" := Sample.trap ]} = None
  ∧ valueHolding Sample.api_key
      {| doc_id := "h5"; doc_data := {[ "symbol" := Sample.trap; "quantity" := VNum 10;
                                         "purchasePrice" := VNum 5 ]} |}
      (Sample.steady 0) !! "error"
    = Some (VStr "Failed to fetch current price")
  ∧ valueHolding Sample.api_key Sample.aaa (λ _, Sample.price_trap)
    = failed_entry Sample.aaa
  ∧ valueHolding Sample.api_key
      {| doc_id := "h6"; doc_data := {[ "symbol" := VStr "AAA"; "quantity" := Sample.trap;
                                         "purchasePrice" := VNum 5 ]} |}
      (Sample.steady 0) !! "totalValue"
    = None.
Proof. split_and!; vm_compute; reflexivity. Qed.

(** A text under [totalValue] turns the total into a string. *)
Example annotated_example :
  totalValue <$> valuePortfolio Sample.api_key [Sample.annotated] Sample.unreachable
  = Some (VStr "0n/a").
Proof. vm_compute. reflexivity. Qed.

(** Any user can patch another owner's holding, and the patch shows in the
    owner's portfolio when the lookup fails. *)
Example patched_by_another_user :
  ∃ st, route Sample.key
          (λ user, put_portfolio user "h3" (VObj {[ "totalValue" := VNum 1000000 ]}))
          1001 (Some (Sample.token_of "u2" 1000)) Sample.store
        = (st, {| status := 200; sent := Text "Stock updated" |})
    ∧ MemStore.portfolios st !! "h3" = Some (doc_data Sample.patched).
Proof. eexists. split; vm_compute; reflexivity. Qed.

(** Any user can remove another owner's holding. *)
Example removed_by_another_user :
  ∃ st, route Sample.key (λ user, delete_portfolio user "h1") 1001
          (Some (Sample.token_of "u2" 1000)) Sample.store
        = (st, {| status := 200; sent := Text "Stock removed" |})
    ∧ MemStore.portfolios Sample.store !! "h1" = Some (doc_data Sample.aaa)
    ∧ Js.get (doc_data Sample.aaa) "uid" = VStr "u1"
    ∧ MemStore.portfolios st !! "h1" = None.
Proof. eexists. split_and!; vm_compute; reflexivity. Qed.

(** The request URL. *)
Example quote_url_example :
  quote_url Sample.api_key (doc_data Sample.aaa)
  = Some "https://www.alphavantage.co/query?function=GLOBAL_QUOTE&symbol=AAA&apikey=demo"%string.
Proof. vm_compute. reflexivity. Qed.

(** Numbers read from and written to text. *)
Example parse_float_examples :
  Js.parseFloat (VStr "7.0000") = Some 7%float
  ∧ Js.parseFloat (VStr "  12.5e1 USD") = Some 125%float
  ∧ Js.parseFloat (VStr "-.5") = Some (-0.5)%float
  ∧ Js.parseFloat (VStr "Infinity") = Some infinity
  ∧ Js.parseFloat (VStr "N/A") = Some nan
  ∧ Js.parseFloat VUndefined = Some nan
  ∧ Js.parseFloat (VNum 7) = Some 7%float
  ∧ Js.parseFloat (VObj ∅) = Some nan
  ∧ Js.parseFloat Sample.trap = None
  ∧ Js.parseFloat (VArr [VNum 7; Sample.trap]) = None.
Proof. split_and!; vm_compute; reflexivity. Qed.

Example to_number_examples :
  Js.ToNumber (VStr "10") = Some 10%float
  ∧ Js.ToNumber (VStr " 0x1F ") = Some 31%float
  ∧ Js.ToNumber (VStr "") = Some 0%float
  ∧ Js.ToNumber (VStr "ten") = Some nan
  ∧ Js.ToNumber (VStr "12px") = Some nan
  ∧ Js.ToNumber VNull = Some 0%float
  ∧ Js.ToNumber VUndefined = Some nan
  ∧ Js.ToNumber (VArr [VNum 5]) = Some 5%float
  ∧ Js.ToNumber (VObj ∅) = Some nan
  ∧ Js.ToNumber (VObj {[ "valueOf" := VNum 1 ]}) = Some nan
  ∧ Js.ToNumber Sample.trap = None.
Proof. split_and!; vm_compute; reflexivity. Qed.

Example to_string_examples :
  Js.ToString (VNum 70) = Some "70"%string
  ∧ Js.ToString (VNum 0.5) = Some "0.5"%string
  ∧ Js.ToString (VNum (0.5 + 0.25)) = Some "0.75"%string
  ∧ Js.ToString (VNum 1e21) = Some "1e+21"%string
  ∧ Js.ToString (VNum (JsNumber.of_Z 123456789012345678901))
    = Some "123456789012345680000"%string
  ∧ Js.ToString (VNum (JsNumber.of_decimal false 1 23)) = Some "1e+23"%string
  ∧ Js.ToString (VNum (JsNumber.of_decimal false 1 (-6))) = Some "0.000001"%string
  ∧ Js.ToString (VNum (JsNumber.of_decimal false 1 (-7))) = Some "1e-7"%string
  ∧ Js.ToString (VNum (JsNumber.of_decimal false 1 (-1) + JsNumber.of_decimal false 2 (-1)))
    = Some "0.30000000000000004"%string
  ∧ Js.ToString (VNum (JsNumber.of_decimal true 12345 (-2))) = Some "-123.45"%string
  ∧ Js.ToString (VNum (JsNumber.of_decimal false 5 (-324))) = Some "5e-324"%string
  ∧ Js.ToString (VNum neg_zero) = Some "0"%string
  ∧ Js.ToString (VArr [VNum 1; VNull; VStr "a"]) = Some "1,,a"%string
  ∧ Js.ToString (VObj ∅) = Some "[object Object]"%string
  ∧ Js.ToString (VObj {[ "toString" := VStr "1" ]}) = None.
Proof. split_and!; vm_compute; reflexivity. Qed.

Example add_examples :
  Js.add (VNum 1.5) (VNum 2) = Some (VNum 3.5)
  ∧ Js.add (VNum 0) (VStr "abc") = Some (VStr "0abc")
  ∧ Js.add (VNum 1) (VBool true) = Some (VNum 2)
  ∧ Js.add (VNum 1) VNull = Some (VNum 1)
  ∧ Js.add (VNum 1) (VObj ∅) = Some (VStr "1[object Object]")
  ∧ Js.add (VNum 0) Sample.trap = None.
Proof. split_and!; vm_compute; reflexivity. Qed.

(** * Further properties of the handlers

    ** The gate *)
Section GateFacts.

Variable SECRET_KEY : option string.
Context {db : Type} `{Firestore db}.

Local Abbreviation verifyToken := (verifyToken SECRET_KEY).
Local Abbreviation route := (route SECRET_KEY).
Local Abbreviation login := (login SECRET_KEY).

Lemma verifyToken_next now authorization user :
  verifyToken now authorization = Next user
  ↔ ∃ t key, authorization = Some (Jwt.Signed t)
      ∧ Jwt.usable SECRET_KEY = Some key ∧ Jwt.secret t = key
      ∧ (Jwt.nbf t = None ∨ ∃ n, Jwt.nbf t = Some (Jwt.Seconds n) ∧ n <= now)
      ∧ (Jwt.exp t = None ∨ ∃ e, Jwt.exp t = Some (Jwt.Seconds e) ∧ now < e)
      ∧ user = Jwt.decoded t.
Proof.
  unfold verifyToken, Jwt.verify. split.
  - destruct authorization as [[s|t]|]; simpl; try discriminate.
    + destruct (negb (negb (s =? ""))%string); discriminate.
    + destruct (Jwt.usable SECRET_KEY) as [key|] eqn:Ek; [|discriminate].
      destruct (String.eqb_spec (Jwt.secret t) key) as [Es|Es]; simpl; [|discriminate].
      destruct (Jwt.timely t now) as [err|] eqn:Et; [discriminate|].
      apply timely_None in Et as [Hn He]. intros [= <-].
      exists t, key. split_and!; done.
  - intros (t & key & -> & Ek & Es & Hn & He & ->). simpl.
    rewrite Ek, Es, String.eqb_refl. simpl.
    assert (Et : Jwt.timely t now = None) by now apply timely_None.
    now rewrite Et.
Qed.

Lemma verifyToken_reject now authorization r :
  verifyToken now authorization = Reject r → r = token_required ∨ r = invalid_token.
Proof.
  unfold verifyToken. destruct authorization as [token|]; [|naive_solver].
  destruct (Jwt.truthy token); simpl; [|naive_solver].
  destruct (Jwt.verify token SECRET_KEY now); naive_solver.
Qed.

(** X1: the gate calls [next()] exactly for a token that was signed with the
    configured secret, whose [nbf], if it has one, is a number not after
    the clock and whose [exp], if it has one, is a number after it; then
    [req.user] is that token's decoded payload. Nothing else gets
    through: every other request is answered by the gate itself, with 403
    or 401. *)
Theorem gate_admits_iff now authorization :
  (∀ user,
     verifyToken now authorization = Next user
     ↔ ∃ t key, authorization = Some (Jwt.Signed t)
         ∧ Jwt.usable SECRET_KEY = Some key ∧ Jwt.secret t = key
         ∧ (Jwt.nbf t = None ∨ ∃ n, Jwt.nbf t = Some (Jwt.Seconds n) ∧ n <= now)
         ∧ (Jwt.exp t = None ∨ ∃ e, Jwt.exp t = Some (Jwt.Seconds e) ∧ now < e)
         ∧ user = Jwt.decoded t)
  ∧ ∀ r, verifyToken now authorization = Reject r → status r = 403 ∨ status r = 401.
Proof.
  split; [apply verifyToken_next|].
  intros r [-> | ->]%verifyToken_reject; auto.
Qed.

(** X2: the times at which the gate lets a credential through form an
    interval: one that is let through at two times is let through, with
    the same [req.user], at every time in between. *)
Theorem gate_interval t1 t2 t3 authorization user user' :
  t1 <= t2 <= t3 →
  verifyToken t1 authorization = Next user →
  verifyToken t3 authorization = Next user' →
  verifyToken t2 authorization = Next user ∧ user' = user.
Proof.
  intros Hle (t & key & Ea & Ek & Es & Hn & _ & Eu)%verifyToken_next
    (t' & key' & Ea' & _ & _ & _ & He & Eu')%verifyToken_next.
  assert (t' = t) by congruence. subst t'. split; [|congruence].
  apply verifyToken_next. exists t, key. split_and!; try done.
  - destruct Hn as [Hn | (n & Hn & ?)]; [now left|]. right. exists n. split; [done|lia].
  - destruct He as [He | (e & He & ?)]; [now left|]. right. exists e. split; [done|lia].
Qed.

(** X3: without a usable secret (the variable unset or empty) no token is
    ever issued, [POST /login] answering 400, and the gate refuses every
    request. *)
Theorem no_secret_no_access :
  Jwt.usable SECRET_KEY = None →
  (∀ now found, status (login now found) = 400)
  ∧ (∀ now authorization, ∃ r, verifyToken now authorization = Reject r).
Proof.
  intros Hk. split.
  - intros now [message|uid]; [reflexivity|]. unfold login, Jwt.sign. now rewrite Hk.
  - intros now authorization.
    destruct (verifyToken now authorization) as [r|user] eqn:E; [eauto|].
    apply verifyToken_next in E. destruct E as (t & key & _ & Ek & _). congruence.
Qed.

End GateFacts.

(** A token valid from 2000 on, between two times at which it is good. *)
Lemma gate_interval_witness :
  verifyToken Sample.key 2500 (Some (Jwt.Signed Sample.postdated))
  = Next (Jwt.decoded Sample.postdated)
  ∧ verifyToken Sample.key 1999 (Some (Jwt.Signed Sample.postdated))
    = Reject invalid_token.
Proof.
  split; [|vm_compute; reflexivity].
  apply (gate_interval Sample.key 2000 2500 3000 _ _ (Jwt.decoded Sample.postdated));
    [lia | vm_compute; reflexivity | vm_compute; reflexivity].
Defined.

Lemma no_secret_no_access_witness :
  status (login (Some ""%string) 1000 (UserRecord "u1")) = 400
  ∧ ∃ r, verifyToken (Some ""%string) 1000 (Some (Sample.token_of "u1" 1000)) = Reject r.
Proof.
  destruct (no_secret_no_access (Some ""%string)) as [Hl Hg]; [reflexivity|].
  split; [apply Hl | apply Hg].
Defined.

(** ** Logging in *)
Section LoginFacts.

Variable SECRET_KEY : option string.
Variable ALPHA_VANTAGE_API_KEY : option string.
Variable destructure_error : value -> string -> string.
Context {db : Type} `{Firestore db}.

(** X4: [POST /login] reads nothing but [email] from the body: two bodies
    with the same [email] get the same answer, so a token is issued to
    whoever names a registered address, with any password or none. *)
Theorem login_reads_email_only getUserByEmail now body1 body2 email :
  Js.member body1 "email" = Some email →
  Js.member body2 "email" = Some email →
  login_request SECRET_KEY destructure_error getUserByEmail now body1
  = login_request SECRET_KEY destructure_error getUserByEmail now body2.
Proof. intros E1 E2. unfold login_request. now rewrite E1, E2. Qed.

(** X5: a token issued by [POST /login] and presented to [GET /portfolio]
    before its hour is over makes the handler read the holdings whose [uid]
    is that of the account, and answer from them: 200 with their
    valuation, or 500 when the read is rejected or a sum throws. *)
Theorem login_then_portfolio now later uid token axios_get (st : db) :
  login SECRET_KEY now (UserRecord uid) = {| status := 200; sent := TokenBody token |} →
  later < now + 3600 →
  route SECRET_KEY (λ user, portfolio ALPHA_VANTAGE_API_KEY user axios_get)
    later (Some token) st
  = match where_uid st (VStr uid) with
    | inr docs =>
        match valuePortfolio ALPHA_VANTAGE_API_KEY docs axios_get with
        | Some s => (st, {| status := 200; sent := SummaryBody s |})
        | None => (st, {| status := 500; sent := Text Js.cannot_convert |})
        end
    | inl message => (st, {| status := 500; sent := Text message |})
    end.
Proof.
  intros Hlogin Hlater. unfold login, Jwt.sign in Hlogin.
  destruct (Jwt.usable SECRET_KEY) as [key|] eqn:Ek; [|discriminate].
  injection Hlogin as <-. unfold route.
  rewrite (issued_token_verifies SECRET_KEY key _ now later) by done.
  destruct (Z.ltb_spec later (now + 3600)); [|lia].
  unfold portfolio, Js.get. rewrite decoded_lookup by done. simpl.
  now rewrite lookup_singleton_eq.
Qed.

End LoginFacts.

Lemma login_reads_email_only_witness :
  login_request Sample.key (λ _ _, ""%string)
    (λ email, match email with VStr "a@b.c" => UserRecord "u1" | _ => NoUser "no user" end)
    1000 (VObj {[ "email" := VStr "a@b.c" ]})
  = login_request Sample.key (λ _ _, ""%string)
      (λ email, match email with VStr "a@b.c" => UserRecord "u1" | _ => NoUser "no user" end)
      1000 (VObj {[ "email" := VStr "a@b.c"; "password" := VStr "wrong" ]}).
Proof.
  apply (login_reads_email_only Sample.key (λ _ _, ""%string) _ 1000 _ _ (VStr "a@b.c"));
    vm_compute; reflexivity.
Defined.

Lemma login_then_portfolio_witness :
  ∃ s, valuePortfolio Sample.api_key (MemStore.documents Sample.store) Sample.provider
       = Some s
    ∧ route Sample.key (λ user, portfolio Sample.api_key user Sample.provider) 2000
        (Some (Sample.token_of "u1" 1000)) Sample.store
      = (Sample.store, {| status := 200; sent := SummaryBody s |}).
Proof.
  eexists. split; [vm_compute; reflexivity|].
  rewrite (login_then_portfolio Sample.key Sample.api_key 1000 2000 "u1"
             (Sample.token_of "u1" 1000) Sample.provider Sample.store).
  - vm_compute. reflexivity.
  - vm_compute. reflexivity.
  - lia.
Defined.

(** ** The entries of [stocks] *)

Lemma mul_nan x : (x * nan)%float = nan.
Proof.
  apply Prim2SF_inj. rewrite mul_spec.
  change (Prim2SF nan) with S754_nan. unfold SF64mul.
  now destruct (Prim2SF x) as [[]|[]| |[] m e].
Qed.

Section EntryFacts.

Variable ALPHA_VANTAGE_API_KEY : option string.

Local Abbreviation quoted_price := (quoted_price ALPHA_VANTAGE_API_KEY).
Local Abbreviation try_quote := (try_quote ALPHA_VANTAGE_API_KEY).
Local Abbreviation valueHolding := (valueHolding ALPHA_VANTAGE_API_KEY).

(** X6: the [id] of an entry is the stored record's own [id] field when it
    has one, and the document id only otherwise: the spread of the record
    comes after [id: doc.id] and overrides it. *)
Theorem entry_id_shadowed doc axios_get :
  valueHolding doc axios_get !! "id"
  = Some (default (VStr (doc_id doc)) (doc_data doc !! "id")).
Proof.
  assert (E : Js.spread {[ "id" := VStr (doc_id doc) ]} (doc_data doc) !! "id"
              = Some (default (VStr (doc_id doc)) (doc_data doc !! "id"))).
  { unfold Js.spread. rewrite lookup_union, lookup_singleton_eq.
    now destruct (doc_data doc !! "id"). }
  destruct (try_quote doc axios_get) as [e|] eqn:Et.
  - rewrite (valueHolding_try _ _ _ _ Et).
    apply try_quote_Some in Et as (p & q & pp & _ & _ & _ & ->).
    unfold valued_entry, Js.set. now rewrite !lookup_insert_ne by done.
  - rewrite (valueHolding_catch _ _ _ Et).
    unfold failed_entry, Js.set. now rewrite lookup_insert_ne by done.
Qed.

(** X7: the fields of an entry are those of the stored record, [id], and
    either the three computed fields (the [try] block completed) or
    [error] (it threw); every stored field under another name is passed on
    unchanged; and the [try] block completes exactly when a price was
    obtained and the stored quantity and purchase price convert to
    numbers. *)
Theorem entry_fields doc axios_get :
  dom (valueHolding doc axios_get)
  = (match try_quote doc axios_get with
     | Some _ => {[ "currentPrice"; "totalValue"; "profitLoss" ]}
     | None => {[ "error" ]}
     end) ∪ {[ "id" ]} ∪ dom (doc_data doc)
  ∧ (∀ k : string,
       k ≠ "id"%string → k ≠ "error"%string → k ≠ "currentPrice"%string →
       k ≠ "totalValue"%string → k ≠ "profitLoss"%string →
       valueHolding doc axios_get !! k = doc_data doc !! k)
  ∧ (is_Some (try_quote doc axios_get)
     ↔ is_Some (quoted_price doc axios_get)
       ∧ is_Some (Js.ToNumber (Js.get (doc_data doc) "quantity"))
       ∧ is_Some (Js.ToNumber (Js.get (doc_data doc) "purchasePrice"))).
Proof.
  split_and!.
  - destruct (try_quote doc axios_get) as [e|] eqn:Et.
    + rewrite (valueHolding_try _ _ _ _ Et).
      apply try_quote_Some in Et as (p & q & pp & _ & _ & _ & ->).
      unfold valued_entry, Js.set, Js.spread.
      rewrite !dom_insert_L, dom_union_L, dom_singleton_L. set_solver.
    + rewrite (valueHolding_catch _ _ _ Et).
      unfold failed_entry, Js.set, Js.spread.
      rewrite !dom_insert_L, dom_union_L, dom_singleton_L. set_solver.
  - intros k ? ? ? ? ?. destruct (try_quote doc axios_get) as [e|] eqn:Et.
    + rewrite (valueHolding_try _ _ _ _ Et).
      apply try_quote_Some in Et as (p & q & pp & _ & _ & _ & ->).
      now apply valued_entry_lookup.
    + rewrite (valueHolding_catch _ _ _ Et). now apply failed_entry_lookup.
  - unfold is_Some. split.
    + intros (e & (p & q & pp & ? & ? & ? & _)%try_quote_Some). split_and!; eauto.
    + intros ((p & Ep) & (q & Eq) & (pp & Epp)). eexists.
      apply try_quote_Some. eauto 10.
Qed.

End EntryFacts.

(** X8: when the stored [quantity] converts to NaN (it is missing, or a
    text that is no numeric literal) and the stored purchase price
    converts too, a quoted holding gets NaN for [totalValue] and for
    [profitLoss] whatever the price, and counts as 0 in both totals. *)
Theorem quantity_not_a_number doc p q pp :
  Js.ToNumber (Js.get (doc_data doc) "quantity") = Some q →
  PrimFloat.is_nan q = true →
  Js.ToNumber (Js.get (doc_data doc) "purchasePrice") = Some pp →
  ∃ e, valued doc p = Some e
    ∧ e !! "totalValue" = Some (VNum nan)
    ∧ e !! "profitLoss" = Some (VNum nan)
    ∧ Js.or (Js.get e "totalValue") (VNum 0) = VNum 0
    ∧ Js.or (Js.get e "profitLoss") (VNum 0) = VNum 0.
Proof.
  intros Eq Hq%FloatFacts.nan_unique Epp. subst q.
  exists (valued_entry doc p (p * nan) ((p - pp) * nan)).
  split; [apply valued_Some; eauto|].
  rewrite !mul_nan. unfold Js.get.
  rewrite valued_entry_totalValue, valued_entry_profitLoss. auto.
Qed.

Lemma quantity_not_a_number_witness :
  ∃ e, valued Sample.worded 7 = Some e ∧ e !! "totalValue" = Some (VNum nan).
Proof.
  destruct (quantity_not_a_number Sample.worded 7 nan 5) as (e & Ee & Et & _);
    [vm_compute; reflexivity | reflexivity | vm_compute; reflexivity |].
  exists e. auto.
Defined.

(** ** The totals, whatever the quotes *)

Lemma reduce_counted field entries :
  Forall (λ e, Js.get e field = VUndefined ∨ ∃ t, Js.get e field = VNum t) entries →
  ∀ s, s ≠ neg_zero →
    fold_left (λ sum stock, sum ≫= λ s, Js.add s (Js.or (Js.get stock field) (VNum 0)))
      entries (Some (VNum s))
    = Some (VNum (fold_left PrimFloat.add (omap (counted field) entries) s)).
Proof.
  induction 1 as [|e entries He _ IH]; intros s Hs; [reflexivity|].
  csimpl. destruct He as [He | [t He]].
  - replace (counted field e) with (@None float) by (unfold counted; now rewrite He).
    rewrite He, reduce_missing by done. now apply IH.
  - rewrite He. unfold Js.or, Js.truthy.
    destruct (PrimFloat.is_zero t || PrimFloat.is_nan t) eqn:Ez; simpl.
    + replace (counted field e) with (@None float)
        by (unfold counted; now rewrite He, Ez).
      change (Js.add (VNum s) (VNum 0)) with (Some (VNum (s + 0))).
      rewrite FloatFacts.add_zero_r by done. now apply IH.
    + replace (counted field e) with (Some t)
        by (unfold counted; now rewrite He, Ez).
      change (Js.add (VNum s) (VNum t)) with (Some (VNum (s + t))).
      apply IH. now apply FloatFacts.add_not_neg_zero.
Qed.

Section Totals.

Variable ALPHA_VANTAGE_API_KEY : option string.

Local Abbreviation try_quote := (try_quote ALPHA_VANTAGE_API_KEY).
Local Abbreviation valueHoldings := (valueHoldings ALPHA_VANTAGE_API_KEY).
Local Abbreviation valuePortfolio := (valuePortfolio ALPHA_VANTAGE_API_KEY).

(** X9: when no stored record has a field named [currentPrice],
    [totalValue] or [profitLoss], the aggregation completes and both
    totals are numbers whatever the provider answers: each is the sum,
    left to right, of the field over the entries where it is a number
    other than zero and NaN; failed entries and NaN products are passed
    over, not propagated. *)
Theorem totals_of_plain docs axios_get :
  Forall (λ doc, plain doc = true) docs →
  ∃ s, valuePortfolio docs axios_get = Some s
    ∧ stocks s = valueHoldings docs axios_get
    ∧ totalValue s = VNum (fsum (omap (counted "totalValue") (stocks s)))
    ∧ totalProfitLoss s = VNum (fsum (omap (counted "profitLoss") (stocks s))).
Proof.
  intros Hplain.
  assert (Hnum : ∀ field : string,
            field = "totalValue"%string ∨ field = "profitLoss"%string →
            Forall (λ e, Js.get e field = VUndefined ∨ ∃ t, Js.get e field = VNum t)
              (valueHoldings docs axios_get)).
  { intros field Hfield. apply Forall_lookup. intros i e.
    rewrite valueHoldings_lookup. destruct (docs !! i) as [doc|] eqn:Ed; [|done].
    simpl. intros [= <-].
    destruct (try_quote doc (axios_get i)) as [e|] eqn:Et.
    - rewrite (valueHolding_try _ _ _ _ Et).
      apply try_quote_Some in Et as (p & q & pp & _ & _ & _ & ->).
      right. unfold Js.get.
      destruct Hfield as [-> | ->];
        [rewrite valued_entry_totalValue | rewrite valued_entry_profitLoss]; eauto.
    - rewrite (valueHolding_catch _ _ _ Et).
      left. rewrite Forall_lookup in Hplain.
      destruct (failed_entry_marked doc (Hplain i doc Ed)) as (_ & _ & Ht & Hl).
      unfold Js.get. destruct Hfield as [-> | ->]; [now rewrite Ht | now rewrite Hl]. }
  eexists. split.
  - apply valuePortfolio_Some. do 2 eexists. split_and!; [| |reflexivity].
    + apply (reduce_counted "totalValue"); [auto|apply FloatFacts.zero_not_neg_zero].
    + apply (reduce_counted "profitLoss"); [auto|apply FloatFacts.zero_not_neg_zero].
  - simpl. auto.
Qed.

End Totals.

(** One holding quoted at 7, one whose price does not parse, one refused. *)
Lemma totals_of_plain_witness :
  ∃ s, valuePortfolio Sample.api_key [Sample.aaa; Sample.bbb; Sample.bad]
         (λ i url, match i with
                   | 0%nat => Sample.steady i url
                   | 1%nat => Sample.garbled
                   | _ => Sample.unreachable i url
                   end) = Some s
    ∧ totalValue s = VNum 70.
Proof.
  destruct (totals_of_plain Sample.api_key [Sample.aaa; Sample.bbb; Sample.bad]
              (λ i url, match i with
                        | 0%nat => Sample.steady i url
                        | 1%nat => Sample.garbled
                        | _ => Sample.unreachable i url
                        end)) as (s & Es & Est & Ht & _).
  - repeat constructor.
  - exists s. split; [exact Es|]. rewrite Ht, Est. vm_compute. reflexivity.
Defined.

(** ** [GET /stocks/live] *)
Section LiveFacts.

Variable ALPHA_VANTAGE_API_KEY : option string.
Variable read_error : value -> string -> string.

Local Abbreviation stocks_live := (stocks_live ALPHA_VANTAGE_API_KEY read_error).
Local Abbreviation live_url := (live_url ALPHA_VANTAGE_API_KEY).
Local Abbreviation quote_url := (quote_url ALPHA_VANTAGE_API_KEY).
Local Abbreviation quoted_price := (quoted_price ALPHA_VANTAGE_API_KEY).
Local Abbreviation valueHolding := (valueHolding ALPHA_VANTAGE_API_KEY).

Lemma live_url_None symbol : live_url symbol = None ↔ Js.ToString symbol = None.
Proof.
  unfold live_url, query_url.
  destruct (Js.ToString symbol) as [s|]; simpl; [|done].
  destruct ALPHA_VANTAGE_API_KEY; simpl; split; discriminate.
Qed.

(** X10: the answers of [GET /stocks/live], case by case: 400 exactly when
    the [symbol] parameter is missing or empty, and then the provider is not
    asked; otherwise 500 exactly when the symbol does not convert to text
    (no request is made), the request is rejected or the body is [null] or
    [undefined], 404 exactly when the body's ['Global Quote'] is falsy, and
    200 exactly when it is truthy, an empty quote object included. *)
Theorem live_statuses symbol axios_get :
  (live_status (stocks_live symbol axios_get) = 400 ↔ Js.truthy symbol = false)
  ∧ (Js.truthy symbol = false ∨ Js.ToString symbol = None →
     ∀ axios_get', stocks_live symbol axios_get' = stocks_live symbol axios_get)
  ∧ (Js.truthy symbol = true →
     (live_status (stocks_live symbol axios_get) = 500
      ↔ Js.ToString symbol = None
        ∨ ∃ url, live_url symbol = Some url
            ∧ ((∃ message, axios_get url = Rejected message)
               ∨ ∃ data, axios_get url = Resolved data
                         ∧ Js.member data "Global Quote" = None))
     ∧ (live_status (stocks_live symbol axios_get) = 404
        ↔ ∃ url data quote, live_url symbol = Some url
            ∧ axios_get url = Resolved data
            ∧ Js.member data "Global Quote" = Some quote ∧ Js.truthy quote = false)
     ∧ (live_status (stocks_live symbol axios_get) = 200
        ↔ ∃ url data quote, live_url symbol = Some url
            ∧ axios_get url = Resolved data
            ∧ Js.member data "Global Quote" = Some quote ∧ Js.truthy quote = true)).
Proof.
  pose proof (live_url_None symbol) as Hnone.
  unfold stocks_live. split_and!.
  - destruct (Js.truthy symbol); simpl; [|done].
    split; [|done].
    destruct (live_url symbol) as [url|]; [|done].
    destruct (axios_get url) as [m|data]; simpl; [done|].
    destruct (Js.member data _) as [quote|]; simpl; [|done].
    now destruct (Js.truthy quote).
  - intros [-> | Hs%Hnone]; [done|]. intros axios_get'. now rewrite Hs.
  - intros ->. simpl.
    destruct (live_url symbol) as [url|] eqn:Eu.
    2:{ split_and!; split; try done.
        - intros _. left. now apply Hnone.
        - intros (? & ? & ? & ? & _). discriminate.
        - intros (? & ? & ? & ? & _). discriminate. }
    assert (Hs : Js.ToString symbol ≠ None).
    { intros Hx%Hnone. discriminate. }
    destruct (axios_get url) as [m|data] eqn:Ea; simpl.
    { split_and!; split; try done.
      - intros _. right. exists url. eauto.
      - intros (url' & data & quote & [= <-] & Ea' & _). congruence.
      - intros (url' & data & quote & [= <-] & Ea' & _). congruence. }
    destruct (Js.member data _) as [quote|] eqn:Em; simpl.
    + destruct (Js.truthy quote) eqn:Et; simpl; split_and!.
      * split; [done|].
        intros [Hx | (url' & [= <-] & [[m Hm] | (data' & Hd & Hm)])]; congruence.
      * split; [done|].
        intros (url' & data' & quote' & [= <-] & Ea' & Em' & Et'); congruence.
      * split; [|done]. intros _. exists url, data, quote. auto.
      * split; [done|].
        intros [Hx | (url' & [= <-] & [[m Hm] | (data' & Hd & Hm)])]; congruence.
      * split; [|done]. intros _. exists url, data, quote. auto.
      * split; [done|].
        intros (url' & data' & quote' & [= <-] & Ea' & Em' & Et'); congruence.
    + split_and!; split; try done.
      * intros _. right. exists url. split; [done|]. right. eauto.
      * intros (url' & data' & quote' & [= <-] & Ea' & Em' & _). congruence.
      * intros (url' & data' & quote' & [= <-] & Ea' & Em' & _). congruence.
Qed.

(** X11: the two quote paths agree on a reply, for a holding whose request
    URL is the one of the live request: when [GET /stocks/live] answers
    200, the aggregator obtains as [currentPrice] the [parseFloat] of the
    [price] that the live endpoint reports (and throws when that throws),
    and the reported [symbol] is the one asked for; when it answers 500,
    the aggregator gives the failed entry. *)
Theorem live_agrees_with_portfolio symbol axios_get doc url :
  Js.truthy symbol = true →
  live_url symbol = Some url →
  quote_url (doc_data doc) = Some url →
  (∀ stockData,
     stocks_live symbol axios_get
     = {| live_status := 200; live_sent := LiveQuote stockData |} →
     quoted_price doc axios_get = Js.parseFloat (Js.get stockData "price")
     ∧ Js.get stockData "symbol" = symbol)
  ∧ (live_status (stocks_live symbol axios_get) = 500 →
     valueHolding doc axios_get = failed_entry doc).
Proof.
  intros Hs Hl Hq. unfold stocks_live. rewrite Hs, Hl. simpl.
  assert (Equote : quoted_price doc axios_get
                   = response_data (axios_get url) ≫= λ data,
                       price_field data ≫= Js.parseFloat).
  { unfold quoted_price. fold quote_url. now rewrite Hq. }
  destruct (axios_get url) as [m|data]; simpl in *.
  { split; [done|]. intros _.
    now apply valueHolding_catch, try_quote_unquoted. }
  unfold price_field in Equote.
  destruct (Js.member data "Global Quote") as [quote|] eqn:Em; simpl in *.
  2:{ split; [done|]. intros _.
      now apply valueHolding_catch, try_quote_unquoted. }
  destruct (Js.truthy quote) eqn:Et; simpl; [|done].
  split; [|done]. intros stockData [= <-].
  assert (Ep : Js.get (live_quote symbol quote) "price" = quote_field quote "05. price").
  { unfold Js.get, live_quote.
    rewrite lookup_insert_ne by done. now rewrite lookup_insert_eq. }
  assert (Es : Js.get (live_quote symbol quote) "symbol" = symbol).
  { unfold Js.get, live_quote. now rewrite lookup_insert_eq. }
  rewrite Ep, Es, Equote. split; [|done].
  unfold quote_field. destruct quote; simpl in *; try done.
Qed.

End LiveFacts.

Lemma live_statuses_witness :
  live_status (stocks_live Sample.api_key (λ _ _, ""%string) (VStr "ZZZZ")
                 (λ _, Sample.unknown_symbol)) = 200
  ∧ live_status (stocks_live Sample.api_key (λ _ _, ""%string)
                   (VObj {[ "toString" := VStr "1" ]}) (λ _, Sample.unknown_symbol))
    = 500.
Proof.
  destruct (live_statuses Sample.api_key (λ _ _, ""%string) (VStr "ZZZZ")
              (λ _, Sample.unknown_symbol)) as (_ & _ & H).
  destruct (live_statuses Sample.api_key (λ _ _, ""%string)
              (VObj {[ "toString" := VStr "1" ]}) (λ _, Sample.unknown_symbol))
    as (_ & _ & H').
  split.
  - apply H; [reflexivity|]. eexists _, (VObj {[ "Global Quote" := VObj ∅ ]}), (VObj ∅).
    split_and!; reflexivity.
  - apply H'; [reflexivity|]. left. reflexivity.
Defined.

Lemma live_agrees_with_portfolio_witness :
  quoted_price Sample.api_key Sample.aaa (λ _, Sample.garbled)
  = Js.parseFloat (VStr "N/A").
Proof.
  destruct (live_agrees_with_portfolio Sample.api_key (λ _ _, ""%string) (VStr "AAA")
              (λ _, Sample.garbled) Sample.aaa
              "https://www.alphavantage.co/query?function=GLOBAL_QUOTE&symbol=AAA&apikey=demo")
    as [H _]; [reflexivity | vm_compute; reflexivity | vm_compute; reflexivity |].
  destruct (H (live_quote (VStr "AAA")
                 (VObj {[ "01. symbol" := VStr "AAA"; "05. price" := VStr "N/A" ]})))
    as [E _]; [vm_compute; reflexivity|].
  rewrite E. vm_compute. reflexivity.
Defined.

(** ** [POST /portfolio/add] *)
Section AddFacts.

Variable ALPHA_VANTAGE_API_KEY : option string.
Variable destructure_error : value -> string -> string.
Context {db : Type} `{Collection db}.

(** X12: [POST /portfolio/add] hands the store a record of exactly four
    fields: [symbol], [quantity] and [purchasePrice] as the body has them,
    unchecked, and the [uid] of the verified token; whatever else the body
    holds (a [uid] of its own, a [totalValue]) is left out, so a holding
    stored this way whose lookup fails gets the failure marker and none of
    the computed fields. *)
Theorem add_stores_four_fields user body symbol quantity purchasePrice (st : db) :
  Js.member body "symbol" = Some symbol →
  Js.member body "quantity" = Some quantity →
  Js.member body "purchasePrice" = Some purchasePrice →
  add_portfolio destructure_error user body st
  = match add_doc st (new_holding user symbol quantity purchasePrice) with
    | inr st' => (st', {| status := 201; sent := Text "Stock added" |})
    | inl message => (st, {| status := 500; sent := Text message |})
    end
  ∧ dom (new_holding user symbol quantity purchasePrice)
    = {[ "uid"; "symbol"; "quantity"; "purchasePrice" ]}
  ∧ new_holding user symbol quantity purchasePrice !! "uid" = Some (Js.get user "uid")
  ∧ ∀ id axios_get,
      let doc := {| doc_id := id;
                    doc_data := new_holding user symbol quantity purchasePrice |} in
      try_quote ALPHA_VANTAGE_API_KEY doc axios_get = None →
      marked_failed (valueHolding ALPHA_VANTAGE_API_KEY doc axios_get).
Proof.
  intros Es Eq Ep.
  assert (Hdom : dom (new_holding user symbol quantity purchasePrice)
                 = {[ "uid"; "symbol"; "quantity"; "purchasePrice" ]}).
  { unfold new_holding. rewrite !dom_insert_L, dom_singleton_L. set_solver. }
  split_and!.
  - unfold add_portfolio. now rewrite Es, Eq, Ep.
  - exact Hdom.
  - unfold new_holding. now rewrite lookup_insert_eq.
  - intros id axios_get doc Hq. rewrite (valueHolding_catch _ _ _ Hq).
    apply failed_entry_marked. unfold plain. simpl.
    rewrite !andb_true_iff, !lacks_spec.
    split_and!; apply not_elem_of_dom; rewrite Hdom; set_solver.
Qed.

End AddFacts.

(** A body that names another owner and a total of its own. *)
Lemma add_stores_four_fields_witness :
  ∃ st, add_portfolio (λ _ _, ""%string) (Jwt.decoded (Sample.issued "u1" 1000))
          (VObj {[ "symbol" := VStr "CCC"; "quantity" := VNum 2;
                   "purchasePrice" := VNum 9; "uid" := VStr "u2";
                   "totalValue" := VNum 1000000 ]})
          Sample.store
        = (st, {| status := 201; sent := Text "Stock added" |})
    ∧ MemStore.portfolios st !! "aaa"
      = Some {[ "uid" := VStr "u1"; "symbol" := VStr "CCC"; "quantity" := VNum 2;
                "purchasePrice" := VNum 9 ]}.
Proof.
  destruct (add_stores_four_fields Sample.api_key (λ _ _, ""%string)
              (Jwt.decoded (Sample.issued "u1" 1000))
              (VObj {[ "symbol" := VStr "CCC"; "quantity" := VNum 2;
                       "purchasePrice" := VNum 9; "uid" := VStr "u2";
                       "totalValue" := VNum 1000000 ]})
              (VStr "CCC") (VNum 2) (VNum 9) Sample.store) as (E & _).
  - vm_compute. reflexivity.
  - vm_compute. reflexivity.
  - vm_compute. reflexivity.
  - rewrite E. eexists. split; vm_compute; reflexivity.
Defined.
(** ** The signs of the two products *)
Module FloatOrder.
Lemma nonneg_spec x : SFleb (S754_zero false) x = true <-> FloatSign.nonneg x.
Proof. destruct x as [[]|[]| |[] m e]; simpl; unfold SFleb; simpl; intuition congruence. Qed.

Lemma nonpos_spec x : SFleb x (S754_zero false) = true <-> FloatSign.nonpos x.
Proof. destruct x as [[]|[]| |[] m e]; simpl; unfold SFleb; simpl; intuition congruence. Qed.

(** Rounding keeps the sign. *)
Lemma binary_round_aux_sign s m e l :
  0 <= m ->
  match binary_round_aux prec emax s m e l with
  | S754_zero s' | S754_infinity s' | S754_finite s' _ _ => s' = s
  | S754_nan => False
  end.
Proof.
  intros Hm. unfold binary_round_aux.
  pose proof (FloatFacts.shr_fexp_nonneg m e l Hm) as H1.
  destruct (shr_fexp prec emax m e l) as [mrs' e']. simpl in H1.
  pose proof (FloatFacts.shr_fexp_nonneg _ e' loc_Exact
                (FloatFacts.round_nearest_even_nonneg _ (loc_of_shr_record mrs') H1)) as H2.
  destruct (shr_fexp prec emax _ e' loc_Exact) as [mrs'' e'']. simpl in H2.
  destruct (shr_m mrs'') as [|p|p]; try reflexivity; try lia.
  destruct (e'' <=? emax - prec); reflexivity.
Qed.

Lemma binary_round_sign s m e :
  match binary_round prec emax s m e with
  | S754_zero s' | S754_infinity s' | S754_finite s' _ _ => s' = s
  | S754_nan => False
  end.
Proof.
  unfold binary_round. destruct (shl_align _ _ _) as [mz ez].
  apply binary_round_aux_sign. lia.
Qed.

Lemma binary_normalize_nonneg z e : 0 <= z -> FloatSign.nonneg (binary_normalize prec emax z e false).
Proof.
  intros Hz. destruct z as [|p|p]; simpl; try lia; trivial.
  pose proof (binary_round_sign false p e) as H.
  destruct (binary_round prec emax false p e) as [[]|[]| |[] ? ?]; simpl; trivial; try discriminate; try contradiction.
Qed.

Lemma binary_normalize_nonpos z e : z <= 0 -> FloatSign.nonpos (binary_normalize prec emax z e false).
Proof.
  intros Hz. destruct z as [|p|p]; simpl; try lia; trivial.
  pose proof (binary_round_sign true p e) as H.
  destruct (binary_round prec emax true p e) as [[]|[]| |[] ? ?]; simpl; trivial; try discriminate; try contradiction.
Qed.

(** Times a positive finite number the sign stays. *)
Lemma SFmul_nonneg x m e : FloatSign.nonneg x -> FloatSign.nonneg (SFmul prec emax x (S754_finite false m e)).
Proof.
  destruct x as [[]|[]| |[] mx ex]; simpl; trivial; try contradiction. intros _.
  pose proof (binary_round_aux_sign false (Zpos (mx * m)) (ex + e) loc_Exact ltac:(lia)) as H.
  destruct (binary_round_aux _ _ _ _ _ _) as [[]|[]| |[] ? ?]; simpl; trivial; try discriminate; try contradiction.
Qed.

Lemma SFmul_nonpos x m e : FloatSign.nonpos x -> FloatSign.nonpos (SFmul prec emax x (S754_finite false m e)).
Proof.
  destruct x as [[]|[]| |[] mx ex]; simpl; trivial; try contradiction. intros _.
  pose proof (binary_round_aux_sign true (Zpos (mx * m)) (ex + e) loc_Exact ltac:(lia)) as H.
  destruct (binary_round_aux _ _ _ _ _ _) as [[]|[]| |[] ? ?]; simpl; trivial; try discriminate; try contradiction.
Qed.

Lemma digits2_pos_upper p : Zpos p < 2 ^ Zpos (digits2_pos p).
Proof.
  induction p as [p IH|p IH|]; simpl digits2_pos.
  - rewrite Pos2Z.inj_succ, Z.pow_succ_r by lia. lia.
  - rewrite Pos2Z.inj_succ, Z.pow_succ_r by lia. lia.
  - simpl. lia.
Qed.

Lemma iter_xO m d : Zpos (Pos.iter xO m d) = Zpos m * 2 ^ Zpos d.
Proof.
  revert m. induction d as [|d IH] using Pos.peano_ind; intros m.
  - simpl. lia.
  - rewrite Pos.iter_succ, Pos2Z.inj_succ, Z.pow_succ_r by lia.
    rewrite Pos2Z.inj_xO, IH. lia.
Qed.

Lemma shl_align_value m e e' :
  e' <= e -> Zpos (fst (shl_align m e e')) = Zpos m * 2 ^ (e - e').
Proof.
  intros He. unfold shl_align.
  destruct (e' - e) as [|d|d] eqn:Ed; simpl.
  - replace (e - e') with 0 by lia. rewrite Z.pow_0_r. lia.
  - lia.
  - rewrite iter_xO. replace (e - e') with (Zpos d) by lia. reflexivity.
Qed.

Lemma valid_finite_digits s m e :
  valid_binary (S754_finite s m e) = true ->
  -1074 <= e /\ Zpos (digits2_pos m) <= 53 /\ (-1074 < e -> Zpos (digits2_pos m) = 53).
Proof.
  simpl. unfold bounded, canonical_mantissa. rewrite FloatFacts.fexp_eq.
  intros H. apply andb_prop in H. destruct H as [H _].
  apply Z.eqb_eq in H. lia.
Qed.

(** The order of two positive canonical numbers is that of their aligned
    mantissas. *)
Lemma compare_aligned m1 e1 m2 e2 :
  valid_binary (S754_finite false m1 e1) = true ->
  valid_binary (S754_finite false m2 e2) = true ->
  SFleb (S754_finite false m1 e1) (S754_finite false m2 e2) = true ->
  Zpos (fst (shl_align m1 e1 (Z.min e2 e1))) <= Zpos (fst (shl_align m2 e2 (Z.min e2 e1))).
Proof.
  intros V1 V2. unfold SFleb. simpl.
  destruct (valid_finite_digits _ _ _ V1) as (L1 & D1 & F1).
  destruct (valid_finite_digits _ _ _ V2) as (L2 & D2 & F2).
  rewrite !shl_align_value by lia.
  destruct (Z.compare_spec e1 e2) as [E|E|E]; try discriminate.
  - subst e2. rewrite Z.min_id, Z.sub_diag. simpl.
    change (PosDef.Pos.compare_cont Eq m1 m2) with (Pos.compare m1 m2).
    destruct (Pos.compare_spec m1 m2); try discriminate; intros _; lia.
  - intros _. rewrite Z.min_r by lia. rewrite Z.sub_diag. simpl (2 ^ 0).
    pose proof (digits2_pos_upper m1) as U1.
    pose proof (FloatFacts.digits2_pos_lower m2) as W2.
    rewrite F2 in W2 by lia. 
    assert (Zpos m1 < 2 ^ 53).
    { eapply Z.lt_le_trans; [exact U1|]. apply Z.pow_le_mono_r; lia. }
    assert (2 ^ 1 <= 2 ^ (e2 - e1)) by (apply Z.pow_le_mono_r; lia).
    change (2 ^ (53 - 1)) with 4503599627370496 in W2.
    change (2 ^ 53) with 9007199254740992 in *. change (2 ^ 1) with 2 in *.
    nia.
Qed.

Lemma SFsub_nonneg x m e :
  valid_binary x = true -> valid_binary (S754_finite false m e) = true ->
  SFleb (S754_finite false m e) x = true ->
  FloatSign.nonneg (SFsub prec emax x (S754_finite false m e)).
Proof.
  intros Vx Vy Hle.
  destruct x as [[]|[]| |[] mx ex]; try discriminate; [exact I|].
  cbn [SFsub cond_Zopp]. apply binary_normalize_nonneg.
  pose proof (compare_aligned m e mx ex Vy Vx Hle). lia.
Qed.

Lemma SFsub_nonpos x m e :
  valid_binary x = true -> valid_binary (S754_finite false m e) = true ->
  SFleb x (S754_finite false m e) = true ->
  FloatSign.nonpos (SFsub prec emax x (S754_finite false m e)).
Proof.
  intros Vx Vy Hle.
  destruct x as [[]|[]| |[] mx ex]; try discriminate; try exact I.
  - cbn [SFsub cond_Zopp]. apply binary_normalize_nonpos. lia.
  - cbn [SFsub cond_Zopp]. apply binary_normalize_nonpos.
    pose proof (compare_aligned mx ex m e Vx Vy Hle) as H.
    rewrite Z.min_comm in H. lia.
Qed.

(** On primitive floats. *)
Lemma mul_nonneg x y :
  PrimFloat.leb 0 x = true -> PrimFloat.ltb 0 y && PrimFloat.ltb y infinity = true ->
  PrimFloat.leb 0 (x * y) = true.
Proof.
  intros Hx Hy. rewrite FloatAxioms.leb_spec in *.
  change (Prim2SF 0) with (S754_zero false) in *.
  destruct (FloatFacts.positive_finite_spec y Hy) as (m & e & Ey).
  rewrite mul_spec, Ey. apply nonneg_spec. apply SFmul_nonneg. now apply nonneg_spec.
Qed.

Lemma mul_nonpos x y :
  PrimFloat.leb x 0 = true -> PrimFloat.ltb 0 y && PrimFloat.ltb y infinity = true ->
  PrimFloat.leb (x * y) 0 = true.
Proof.
  intros Hx Hy. rewrite FloatAxioms.leb_spec in *.
  change (Prim2SF 0) with (S754_zero false) in *.
  destruct (FloatFacts.positive_finite_spec y Hy) as (m & e & Ey).
  rewrite mul_spec, Ey. apply nonpos_spec. apply SFmul_nonpos. now apply nonpos_spec.
Qed.

Lemma sub_nonneg x y :
  PrimFloat.ltb 0 y && PrimFloat.ltb y infinity = true ->
  PrimFloat.leb y x = true -> PrimFloat.leb 0 (x - y) = true.
Proof.
  intros Hy Hle. rewrite FloatAxioms.leb_spec in *.
  change (Prim2SF 0) with (S754_zero false).
  destruct (FloatFacts.positive_finite_spec y Hy) as (m & e & Ey).
  pose proof (Prim2SF_valid x) as Vx. pose proof (Prim2SF_valid y) as Vy.
  rewrite Ey in *. rewrite sub_spec, Ey. apply nonneg_spec.
  now apply SFsub_nonneg.
Qed.

Lemma sub_nonpos x y :
  PrimFloat.ltb 0 y && PrimFloat.ltb y infinity = true ->
  PrimFloat.leb x y = true -> PrimFloat.leb (x - y) 0 = true.
Proof.
  intros Hy Hle. rewrite FloatAxioms.leb_spec in *.
  change (Prim2SF 0) with (S754_zero false).
  destruct (FloatFacts.positive_finite_spec y Hy) as (m & e & Ey).
  pose proof (Prim2SF_valid x) as Vx. pose proof (Prim2SF_valid y) as Vy.
  rewrite Ey in *. rewrite sub_spec, Ey. apply nonpos_spec.
  now apply SFsub_nonpos.
Qed.

End FloatOrder.


(** X13: for a holding whose stored quantity is a positive number, a price
    that is zero or more gives a [totalValue] that is zero or more: the
    product [currentPrice * stockData.quantity] does not throw, is never
    negative and never NaN, and it is the [totalValue] of the entry the
    [try] block makes. *)
Theorem total_value_not_negative doc p :
  positive_number (Js.get (doc_data doc) "quantity") = true →
  PrimFloat.leb 0 p = true →
  ∃ tv, Js.mul (VNum p) (Js.get (doc_data doc) "quantity") = Some tv
        ∧ PrimFloat.leb 0 tv = true
        ∧ (∀ e, valued doc p = Some e → e !! "totalValue" = Some (VNum tv))
        ∧ (is_Some (Js.ToNumber (Js.get (doc_data doc) "purchasePrice")) →
           is_Some (valued doc p)).
Proof.
  intros (q & Eq & Hq)%positive_number_spec Hp. rewrite Eq.
  exists (p * q)%float. split; [reflexivity|].
  split; [now apply FloatOrder.mul_nonneg|]. split.
  - intros e (q' & pp & Eq' & _ & ->)%valued_Some.
    rewrite Eq in Eq'. injection Eq' as <-. apply valued_entry_totalValue.
  - intros [pp Epp]. eexists. apply valued_Some. exists q, pp. now rewrite Eq.
Qed.

(** X14: for a Holding of the data model the [try] block makes its entry
    whatever the price, and [profitLoss] has the sign of the comparison of
    the price with the purchase price: it is zero or more when the price is
    at or above the purchase price, and zero or less when it is at or
    below; rounding never turns a gain into a loss. *)
Theorem profit_has_the_sign doc p :
  well_formed doc = true →
  ∃ pp pl e, Js.get (doc_data doc) "purchasePrice" = VNum pp
    ∧ valued doc p = Some e
    ∧ e !! "profitLoss" = Some (VNum pl)
    ∧ (PrimFloat.leb pp p = true → PrimFloat.leb 0 pl = true)
    ∧ (PrimFloat.leb p pp = true → PrimFloat.leb pl 0 = true).
Proof.
  intros Hwf. unfold well_formed in Hwf. apply andb_prop in Hwf.
  destruct Hwf as [(q & Eq & Hq)%positive_number_spec (pp & Epp & Hpp)%positive_number_spec].
  exists pp, ((p - pp) * q)%float, (valued_entry doc p (p * q) ((p - pp) * q)).
  split; [exact Epp|]. split; [now apply valued_number|].
  split; [apply valued_entry_profitLoss|]. split; intros Hle.
  - apply FloatOrder.mul_nonneg; [|done]. now apply FloatOrder.sub_nonneg.
  - apply FloatOrder.mul_nonpos; [|done]. now apply FloatOrder.sub_nonpos.
Qed.

Lemma total_value_not_negative_witness :
  ∃ tv, Js.mul (VNum 7) (Js.get (doc_data Sample.aaa) "quantity") = Some tv
        ∧ PrimFloat.leb 0 tv = true
        ∧ (∀ e, valued Sample.aaa 7 = Some e → e !! "totalValue" = Some (VNum tv))
        ∧ (is_Some (Js.ToNumber (Js.get (doc_data Sample.aaa) "purchasePrice")) →
           is_Some (valued Sample.aaa 7)).
Proof.
  apply (total_value_not_negative Sample.aaa 7); vm_compute; reflexivity.
Defined.

Lemma profit_has_the_sign_witness :
  ∃ pp pl e, Js.get (doc_data Sample.aaa) "purchasePrice" = VNum pp
    ∧ valued Sample.aaa 4 = Some e
    ∧ e !! "profitLoss" = Some (VNum pl)
    ∧ (PrimFloat.leb pp 4 = true → PrimFloat.leb 0 pl = true)
    ∧ (PrimFloat.leb 4 pp = true → PrimFloat.leb pl 0 = true).
Proof.
  apply (profit_has_the_sign Sample.aaa 4). vm_compute. reflexivity.
Defined.

(** ** The admin route *)
Section AdminFacts.

Variable SECRET_KEY : option string.
Context {db : Type} `{Firestore db}.

(** X15: [GET /admin/user-portfolios] answers 200 with the stored records
    of every owner, in the order read, exactly when the credential is a
    token signed with the configured secret, past its [nbf] and before its
    [exp] (where it has them), whose signed claims hold a truthy [admin],
    and the store read succeeds; the store is left as it was. *)
Theorem admin_access_iff now authorization docs (st : db) :
  route SECRET_KEY admin_portfolios now authorization st
  = (st, {| status := 200; sent := Documents (doc_data <$> docs) |})
  ↔ ∃ t key, authorization = Some (Jwt.Signed t)
      ∧ Jwt.usable SECRET_KEY = Some key ∧ Jwt.secret t = key
      ∧ (Jwt.nbf t = None ∨ ∃ n, Jwt.nbf t = Some (Jwt.Seconds n) ∧ n <= now)
      ∧ (Jwt.exp t = None ∨ ∃ e, Jwt.exp t = Some (Jwt.Seconds e) ∧ now < e)
      ∧ Js.truthy (Js.get (Jwt.claims t) "admin") = true
      ∧ ∃ docs', get_all st = inr docs' ∧ doc_data <$> docs' = doc_data <$> docs.
Proof.
  unfold route. split.
  - destruct (verifyToken SECRET_KEY now authorization) as [r|user] eqn:Eg.
    + intros [= ->]. apply verifyToken_reject in Eg. destruct Eg; discriminate.
    + apply verifyToken_next in Eg.
      destruct Eg as (t & key & Ea & Ek & Es & Hn & He & ->).
      unfold admin_portfolios, Js.get. rewrite decoded_lookup by done.
      destruct (Js.truthy (default VUndefined (Jwt.claims t !! "admin"))) eqn:Et;
        simpl; [|discriminate].
      destruct (get_all st) as [m|docs'] eqn:Eall; [discriminate|].
      intros [= Ed]. exists t, key. split_and!; try done. eauto.
  - intros (t & key & Ea & Ek & Es & Hn & He & Et & docs' & Eall & Ed).
    assert (Eg : verifyToken SECRET_KEY now authorization = Next (Jwt.decoded t)).
    { apply verifyToken_next. exists t, key. auto 10. }
    rewrite Eg. unfold admin_portfolios.
    unfold Js.get in *. rewrite decoded_lookup by done.
    now rewrite Et, Eall, Ed.
Qed.

End AdminFacts.
